(** * A shallow embedding of [src/utils/dateTime.ts]

    The class [DateTime] wraps a JavaScript [Date] and formats, shifts and
    compares it with the [dayjs] library.  The embedding has three layers:

    - [ES]: the part of the ECMAScript [Date] object the class relies on
      (time values, [TimeClip], the calendar functions, local-time getters
      and setters);
    - [Dayjs]: the part of [dayjs] (with its [utc] and [timezone] plugins)
      that the class calls;
    - [DateTime]: the class itself, method by method.

    What the embedding assumes of the environment:

    - JavaScript numbers that hold whole quantities (time values in
      milliseconds, day and year counts) are integers of [Z], with [NaN]
      kept as a constructor of [number]; where the code subtracts two time
      values the difference is rounded as a double is ([round53]); a number
      passed as an argument is a [jsnum]: [NaN], an infinity or a finite
      double;
    - the host's zone is a fixed offset of [L] minutes from UTC (a host
      with daylight saving time is outside the embedding);
    - Asia/Tokyo, the zone the module configures, is known to the code
      through the engine only: [tz()] prints the instant with
      [toLocaleString("en-US", {timeZone})] and reads the string back with
      [new Date].  The printing is the parameter [zone_string];
    - what the engine reads from a date string ([Date_parse], behind
      [new Date(string)]) and what dayjs reads from one ([dayjs_parse],
      behind [dayjs(string)]) are parameters: both are implementation
      defined outside the ISO format;
    - the clock is read where the code reads it, and its reading is an
      argument of the method. *)

From Stdlib Require Import ZArith String Ascii List Bool Lia DecimalString Sorted.
Import ListNotations.

Local Open Scope string_scope.
Local Open Scope Z_scope.

(** ** JavaScript values *)

(** A JavaScript number as the class meets it: an integer or [NaN]. *)
Inductive number : Type :=
| NaN
| Num (z : Z).

(** [String(n)] and template-literal interpolation of a number. *)
Definition ToString (n : number) : string :=
  match n with
  | NaN => "NaN"
  | Num z => NilZero.string_of_int (Z.to_int z)
  end.

(** [a < b] on numbers: false as soon as one side is [NaN]. *)
Definition num_lt (a b : number) : bool :=
  match a, b with
  | Num x, Num y => x <? y
  | _, _ => false
  end.

(** [a <= b] on numbers. *)
Definition num_le (a b : number) : bool :=
  match a, b with
  | Num x, Num y => x <=? y
  | _, _ => false
  end.

(** [a + k] for an integer [k]. *)
Definition num_add (a : number) (k : Z) : number :=
  match a with
  | NaN => NaN
  | Num x => Num (x + k)
  end.

(** The double nearest to the integer [x], for a magnitude below [2^54] (the
    difference of two time values is below it): exact up to [2^53], the
    nearest even integer beyond, a tie going to the multiple of 4. *)
Definition two53 : Z := 9007199254740992.

Definition round53 (x : Z) : Z :=
  if Z.abs x <=? two53 then x
  else if Z.even x then x
  else if (x + 1) mod 4 =? 0 then x + 1
  else x - 1.

(** A number passed as an argument: [NaN], an infinity, or the finite
    double [m * 2 ^ e]. *)
Inductive jsnum : Type :=
| JNaN
| JInf (negative : bool)
| JFin (m e : Z).

(** The whole number [n] as an argument. *)
Definition whole (n : Z) : jsnum := JFin n 0.

(** [Math.round(x)] of a finite [x = m * 2 ^ e]: the nearest integer, a
    half going up. *)
Definition round_half_up (m e : Z) : Z :=
  if 0 <=? e then m * 2 ^ e
  else (m + 2 ^ (- e - 1)) / 2 ^ (- e).

(** The integer [M] rounded to 53 significant bits, ties to even: the pair
    [(M', k)] stands for [M' * 2 ^ k]. *)
Definition round_sig (M : Z) : Z * Z :=
  let k := Z.log2 (Z.abs M) + 1 - 53 in
  if k <=? 0 then (M, 0)
  else
    let q := M / 2 ^ k in
    let r := M mod 2 ^ k in
    let half := 2 ^ (k - 1) in
    (if r <? half then q
     else if half <? r then q + 1
     else if Z.even q then q else q + 1, k).

(** [y + x] for an integer [y] and a finite [x = m * 2 ^ e]: the sum is
    rounded to a double, then truncated to an integer as
    [ToIntegerOrInfinity] truncates it. *)
Definition add_trunc (y m e : Z) : Z :=
  let E := Z.min e 0 in
  let M := y * 2 ^ (- E) + m * 2 ^ (e - E) in
  let e' := E + snd (round_sig M) in
  if 0 <=? e' then fst (round_sig M) * 2 ^ e'
  else Z.quot (fst (round_sig M)) (2 ^ (- e')).

(** The outcome of a method that may raise. *)
Inductive result (A : Type) : Type :=
| Ok (a : A)
| Throw (e : string).
Arguments Ok {A} a.
Arguments Throw {A} e.

(** ** Strings *)

(** [s.replace(/-/g, "/")]. *)
Fixpoint replace_dash (s : string) : string :=
  match s with
  | EmptyString => EmptyString
  | String c r =>
      String (if Ascii.eqb c "-" then "/"%char else c) (replace_dash r)
  end.

(** [s.split(sep)] for a one-character separator. *)
Fixpoint split (sep : ascii) (s : string) : list string :=
  match s with
  | EmptyString => [EmptyString]
  | String c r =>
      if Ascii.eqb c sep then EmptyString :: split sep r
      else match split sep r with
           | h :: t => String c h :: t
           | [] => [String c EmptyString]
           end
  end.

Definition is_digit (c : ascii) : bool :=
  (48 <=? nat_of_ascii c)%nat && (nat_of_ascii c <=? 57)%nat.

(** Consume exactly [n] characters of class [[0-9]]. *)
Fixpoint digits (n : nat) (s : string) : option string :=
  match n with
  | O => Some s
  | S n' =>
      match s with
      | String c r => if is_digit c then digits n' r else None
      | EmptyString => None
      end
  end.

(** Consume one [:]. *)
Definition colon (s : string) : option string :=
  match s with
  | String c r => if Ascii.eqb c ":" then Some r else None
  | EmptyString => None
  end.

(** The tail [:[0-9]{2}:[0-9]{2}$] of the time pattern. *)
Definition re_tail (s : string) : bool :=
  match colon s with
  | Some s1 =>
      match digits 2 s1 with
      | Some s2 =>
          match colon s2 with
          | Some s3 =>
              match digits 2 s3 with
              | Some EmptyString => true
              | _ => false
              end
          | None => false
          end
      | None => false
      end
  | None => false
  end.

(** [/^[0-9]{1,2}:[0-9]{2}:[0-9]{2}$/]: two leading digits, else one. *)
Definition re_hms (s : string) : bool :=
  match digits 2 s with
  | Some r => re_tail r
  | None => false
  end
  || match digits 1 s with
     | Some r => re_tail r
     | None => false
     end.

(** [String(x).padStart]-like helper of dayjs ([Utils.s]): pad on the left
    with ["0"] up to [len] characters, leave longer strings alone. *)
Definition padStart (s : string) (len : nat) : string :=
  if (len <=? String.length s)%nat then s
  else String.concat "" (repeat "0" (len - String.length s)) ++ s.

(** ** The ECMAScript Date object *)

Module ES.

Definition msPerSecond : Z := 1000.
Definition msPerMinute : Z := 60000.
Definition msPerHour : Z := 3600000.
Definition msPerDay : Z := 86400000.

(** The largest magnitude of a time value: 100,000,000 days. *)
Definition maxTime : Z := 8640000000000000.

(** [TimeClip]: a time value outside the range is [NaN]. *)
Definition TimeClip (t : Z) : number :=
  if Z.abs t <=? maxTime then Num t else NaN.

Definition Day (t : Z) : Z := t / msPerDay.
Definition TimeWithinDay (t : Z) : Z := t mod msPerDay.
Definition HourFromTime (t : Z) : Z := (t / msPerHour) mod 24.
Definition MinFromTime (t : Z) : Z := (t / msPerMinute) mod 60.
Definition SecFromTime (t : Z) : Z := (t / msPerSecond) mod 60.
Definition msFromTime (t : Z) : Z := t mod msPerSecond.
Definition WeekDay (t : Z) : Z := (Day t + 4) mod 7.

(** *** The proleptic Gregorian calendar

    Day numbers count from 1970-01-01.  Years are split in eras of 400 years
    that start on March 1st, so that the leap day is the last day of a year;
    [doe] is the day of the era, [yoe] the year of the era. *)

Definition daysPerEra : Z := 146097.
Definition epochShift : Z := 719468.

Definition is_leap (y : Z) : bool :=
  (y mod 4 =? 0) && (negb (y mod 100 =? 0) || (y mod 400 =? 0)).

(** Month [m] is 1..12 here. *)
Definition days_in_month (y m : Z) : Z :=
  if m =? 2 then (if is_leap y then 29 else 28)
  else if (m =? 4) || (m =? 6) || (m =? 9) || (m =? 11) then 30
  else 31.

Definition doe_of (yoe m d : Z) : Z :=
  let mp := (m + 9) mod 12 in
  let doy := (153 * mp + 2) / 5 + d - 1 in
  yoe * 365 + yoe / 4 - yoe / 100 + doy.

Definition days_from_civil (y m d : Z) : Z :=
  let y' := if m <=? 2 then y - 1 else y in
  (y' / 400) * daysPerEra + doe_of (y' mod 400) m d - epochShift.

(** Year (relative to the era's first calendar year), month and day of a
    day of the era. *)
Definition civil_of_doe (doe : Z) : Z * Z * Z :=
  let yoe := (doe - doe / 1460 + doe / 36524 - doe / 146096) / 365 in
  let doy := doe - (365 * yoe + yoe / 4 - yoe / 100) in
  let mp := (5 * doy + 2) / 153 in
  let d := doy - (153 * mp + 2) / 5 + 1 in
  let m := if mp <? 10 then mp + 3 else mp - 9 in
  (yoe + (if m <=? 2 then 1 else 0), m, d).

Definition civil_from_days (z : Z) : Z * Z * Z :=
  let z' := z + epochShift in
  match civil_of_doe (z' mod daysPerEra) with
  | (y0, m, d) => (y0 + (z' / daysPerEra) * 400, m, d)
  end.

Definition YearFromTime (t : Z) : Z := fst (fst (civil_from_days (Day t))).
(** 0-based, as in ECMAScript. *)
Definition MonthFromTime (t : Z) : Z := snd (fst (civil_from_days (Day t))) - 1.
Definition DateFromTime (t : Z) : Z := snd (civil_from_days (Day t)).

Definition MakeTime (h m s ms : Z) : Z :=
  h * msPerHour + m * msPerMinute + s * msPerSecond + ms.

(** [month] is 0-based and may overflow into neighbouring years; [dt] may
    fall outside the month. *)
Definition MakeDay (year month dt : Z) : Z :=
  days_from_civil (year + month / 12) (month mod 12 + 1) 1 + dt - 1.

Definition MakeDate (day time : Z) : Z := day * msPerDay + time.

(** A [Date] object: its time value. *)
Record Date : Type := mkDate { getTime : number }.

(** [new Date(value)] from a number. *)
Definition Date_of_number (n : number) : Date :=
  mkDate (match n with NaN => NaN | Num t => TimeClip t end).

Definition Invalid_Date : Date := mkDate NaN.

Section Host.

(** The host's offset from UTC in minutes (540 in Asia/Tokyo), the same at
    every instant. *)
Variable L : Z.

Definition LocalTime (t : Z) : Z := t + L * msPerMinute.
Definition UTC (t : Z) : Z := t - L * msPerMinute.

(** A getter reads a field of the local time, [NaN] on an invalid date. *)
Definition getter (f : Z -> Z) (d : Date) : number :=
  match getTime d with
  | NaN => NaN
  | Num t => Num (f (LocalTime t))
  end.

Definition getFullYear : Date -> number := getter YearFromTime.
Definition getMonth : Date -> number := getter MonthFromTime.
Definition getDate : Date -> number := getter DateFromTime.
Definition getDay : Date -> number := getter WeekDay.
Definition getHours : Date -> number := getter HourFromTime.
Definition getMinutes : Date -> number := getter MinFromTime.
Definition getSeconds : Date -> number := getter SecFromTime.
Definition getMilliseconds : Date -> number := getter msFromTime.

(** [d.getTimezoneOffset()]: minutes to add to local time to get UTC. *)
Definition getTimezoneOffset (d : Date) : number :=
  match getTime d with
  | NaN => NaN
  | Num _ => Num (- L)
  end.

(** A setter rebuilds the local time and clips the result. *)
Definition setter (f : Z -> Z) (d : Date) : Date :=
  match getTime d with
  | NaN => d
  | Num t => mkDate (TimeClip (UTC (f (LocalTime t))))
  end.

Definition setHours (h : Z) : Date -> Date :=
  setter (fun t =>
    MakeDate (Day t) (MakeTime h (MinFromTime t) (SecFromTime t) (msFromTime t))).

Definition setMinutes (m : Z) : Date -> Date :=
  setter (fun t =>
    MakeDate (Day t) (MakeTime (HourFromTime t) m (SecFromTime t) (msFromTime t))).

Definition setSeconds (s : Z) : Date -> Date :=
  setter (fun t =>
    MakeDate (Day t) (MakeTime (HourFromTime t) (MinFromTime t) s (msFromTime t))).

Definition setMilliseconds (ms : Z) : Date -> Date :=
  setter (fun t =>
    MakeDate (Day t) (MakeTime (HourFromTime t) (MinFromTime t) (SecFromTime t) ms)).

Definition setDate (dt : Z) : Date -> Date :=
  setter (fun t =>
    MakeDate (MakeDay (YearFromTime t) (MonthFromTime t) dt) (TimeWithinDay t)).

(** [new Date(year, month, date)]: local midnight; a year in 0..99 means
    1900 + year. *)
Definition Date_of_ymd (year month dt : Z) : Date :=
  let yr := if (0 <=? year) && (year <=? 99) then 1900 + year else year in
  mkDate (TimeClip (UTC (MakeDate (MakeDay yr month dt) 0))).

(** [d.toLocaleString("ja-JP")]: [Y/M/D H:MM:SS] in the host's zone. *)
Definition toLocaleString_ja (d : Date) : string :=
  match getTime d with
  | NaN => "Invalid Date"
  | Num _ =>
      ToString (getFullYear d) ++ "/" ++ ToString (num_add (getMonth d) 1)
      ++ "/" ++ ToString (getDate d) ++ " " ++ ToString (getHours d)
      ++ ":" ++ padStart (ToString (getMinutes d)) 2
      ++ ":" ++ padStart (ToString (getSeconds d)) 2
  end.

End Host.

End ES.

(** ** The dayjs library

    dayjs is not part of the repository; this is the behaviour of the calls
    the class makes, with the [utc] and [timezone] plugins loaded and
    Asia/Tokyo as default zone. *)

Module Dayjs.

Import ES.

(** The offset of Asia/Tokyo since 1951, in minutes. *)
Definition tokyo : Z := 540.

(** An instance: the wrapped [Date] (dayjs's [$d]), the offset in minutes of
    an instance made by [tz] ([$offset]) and the UTC mode ([$u]).  The [Date]
    of an instance with an offset is shifted so that the host's local getters
    read the zone's wall-clock time.  The fields [$y], [$M], [$D], [$H],
    [$m], [$s], [$ms] that dayjs caches are the getters of [$d], the UTC ones
    in UTC mode, read here on demand. *)
Record Dayjs : Type := mk { d_ : Date; offset_ : option Z; u_ : bool }.

(** [s.slice(n)]. *)
Fixpoint drop (n : nat) (s : string) : string :=
  match n, s with
  | O, _ => s
  | S n', String _ r => drop n' r
  | S _, EmptyString => EmptyString
  end.

(** [Math.round(x / 1000 / 60)]: the nearest whole number of minutes, a half
    going up. *)
Definition round_minutes (x : Z) : Z := (2 * x + msPerMinute) / (2 * msPerMinute).

(** [-Math.round(tzo / 15) * 15]: an offset to the nearest quarter of an
    hour. *)
Definition quarter_offset (tzo : Z) : Z := - ((2 * tzo + 15) / 30) * 15.

Section Lib.

Variable L : Z.

(** The time value of the [Date] dayjs builds from a string
    ([dayjs(string)]): its own pattern for ISO-like strings, the engine's
    reading otherwise. *)
Variable parseDate : string -> number.

(** The time value of [new Date(string)] in the engine. *)
Variable Date_parse : string -> number.

(** [date.toLocaleString("en-US", { timeZone: "Asia/Tokyo" })] for the valid
    date of time value [t]: what the engine and its time-zone data print. *)
Variable zone_string : Z -> string.

(** [dayjs(date)] on a [Date]: a copy is wrapped. *)
Definition of_Date (date : Date) : Dayjs :=
  mk (mkDate (getTime date)) None false.

(** [dayjs(string)]. *)
Definition of_string (s : string) : Dayjs :=
  mk (mkDate (parseDate s)) None false.

(** [dayjs()] when the clock reads [now]. *)
Definition of_now (now : Z) : Dayjs :=
  mk (mkDate (Num now)) None false.

(** [Utils.w]: a new instance on [date] that keeps the zone and the mode. *)
Definition wrap (date : Date) (x : Dayjs) : Dayjs :=
  mk date (offset_ x) (u_ x).

(** The offset at which the fields of an instance are read and set: UTC in
    UTC mode, the host's otherwise. *)
Definition host (x : Dayjs) : Z := if u_ x then 0 else L.

Definition isValid (x : Dayjs) : bool :=
  match getTime (d_ x) with
  | NaN => false
  | Num _ => true
  end.

(** The instant: the shift of a zoned instance is undone. *)
Definition valueOf (x : Dayjs) : number :=
  match offset_ x with
  | None => getTime (d_ x)
  | Some o =>
      match getTime (d_ x), getTimezoneOffset L (d_ x) with
      | Num t, Num tzo => Num (t - (o + tzo) * msPerMinute)
      | _, _ => NaN
      end
  end.

Definition toDate (x : Dayjs) : Date := Date_of_number (valueOf x).

(** [utcOffset()]: 0 in UTC mode, else the zone's offset, or the host's
    rounded to a quarter of an hour. *)
Definition utcOffset (x : Dayjs) : number :=
  if u_ x then Num 0
  else
    match offset_ x with
    | Some o => Num o
    | None =>
        match getTimezoneOffset L (d_ x) with
        | NaN => NaN
        | Num tzo => Num (- ((2 * tzo + 15) / 30) * 15)
        end
    end.

(** [utc()]: the same instant in UTC mode. *)
Definition utc (x : Dayjs) : Dayjs := mk (toDate x) None true.

(** [$set("millisecond", $ms)] with the milliseconds [$ms] of [this]. *)
Definition set_ms (this ins : Dayjs) : Dayjs :=
  match getMilliseconds (host this) (d_ this) with
  | NaN => wrap Invalid_Date ins
  | Num ms => wrap (setMilliseconds (host ins) ms (d_ ins)) ins
  end.

(** [utcOffset(offset, true)]: the offset is stored, in minutes (a value of
    at most 16 counts hours), and the clock time is kept. *)
Definition keep_local (offset : Z) (ins : Dayjs) : Dayjs :=
  mk (d_ ins) (Some (if Z.abs offset <=? 16 then offset * 60 else offset))
    (offset =? 0).

(** [tz()] with the default zone:
    [target = date.toLocaleString("en-US", { timeZone })],
    [diff = Math.round((date - new Date(target)) / 1000 / 60)],
    [offset = -Math.round(date.getTimezoneOffset() / 15) * 15 - diff]; then
    [dayjs(target).$set("millisecond", this.$ms).utcOffset(offset, true)],
    or [this.utcOffset(0)], which is [this.utc()], when [offset] is 0 or
    [NaN].  On an invalid date the difference is [NaN] whatever [target]
    reads as. *)
Definition tz (x : Dayjs) : Dayjs :=
  let date := toDate x in
  match getTime date, getTimezoneOffset L date with
  | Num t, Num tzo =>
      let target := zone_string t in
      match Date_parse target with
      | NaN => utc x
      | Num p =>
          let diff := round_minutes (round53 (t - p)) in
          let offset := quarter_offset tzo - diff in
          if offset =? 0 then utc x
          else keep_local offset (set_ms x (of_string target))
      end
  | _, _ => utc x
  end.

(** [add(n, "d")] for a whole [n]: [setDate($D + n)] on a copy, on the UTC
    fields in UTC mode. *)
Definition add_d (n : Z) (x : Dayjs) : Dayjs :=
  match getDate (host x) (d_ x) with
  | NaN => wrap Invalid_Date x
  | Num D => wrap (setDate (host x) (D + n) (d_ x)) x
  end.

(** [subtract(n, "d")] is [add(n * -1, "d")]. *)
Definition subtract_d (n : Z) (x : Dayjs) : Dayjs := add_d (n * -1) x.

(** [add(number, "d")] for any number: [$D + Math.round(1 * number)] is
    passed to [setDate], which gives an invalid date when it is not
    finite. *)
Definition add_d_number (number : jsnum) (x : Dayjs) : Dayjs :=
  match number with
  | JFin m e => add_d (round_half_up m e) x
  | _ => wrap Invalid_Date x
  end.

(** [number * -1]. *)
Definition negate (number : jsnum) : jsnum :=
  match number with
  | JNaN => JNaN
  | JInf b => JInf (negb b)
  | JFin m e => JFin (- m) e
  end.

Definition subtract_d_number (number : jsnum) (x : Dayjs) : Dayjs :=
  add_d_number (negate number) x.

(** [add(n, "m")]: a new instance [n] minutes of milliseconds later. *)
Definition add_m (n : Z) (x : Dayjs) : Dayjs :=
  wrap (Date_of_number (num_add (getTime (d_ x)) (n * msPerMinute))) x.

(** [add(n, "y")]: year [$y + n], same month and clock time, the day of
    the month clamped to the length of the month. *)
Definition add_y (n : Z) (x : Dayjs) : Dayjs :=
  wrap
    (setter L
       (fun t =>
          let y := YearFromTime t + n in
          let m := MonthFromTime t in
          let dt := Z.min (DateFromTime t) (days_in_month y (m + 1)) in
          MakeDate (MakeDay y m dt) (TimeWithinDay t))
       (d_ x))
    x.

(** [startOf("year")]: [new Date($y, 0, 1)]. *)
Definition startOf_year (x : Dayjs) : Dayjs :=
  match getFullYear L (d_ x) with
  | NaN => wrap Invalid_Date x
  | Num y => wrap (Date_of_ymd L y 0 1) x
  end.

(** [add(number, "y")] for any number: the year passed to [setFullYear] is
    [$y + number], truncated; a year that is not finite gives an invalid
    date.  Applied by the class to an instance in local mode. *)
Definition add_y_number (number : jsnum) (x : Dayjs) : Dayjs :=
  match number, getFullYear L (d_ x) with
  | JFin m e, Num y => add_y (add_trunc y m e - y) x
  | _, _ => wrap Invalid_Date x
  end.

(** [hour(h)], [minute(m)], [second(s)] as setters, applied by the class to
    an instance in local mode. *)
Definition hour (h : Z) (x : Dayjs) : Dayjs := wrap (setHours L h (d_ x)) x.
Definition minute (m : Z) (x : Dayjs) : Dayjs := wrap (setMinutes L m (d_ x)) x.
Definition second (s : Z) (x : Dayjs) : Dayjs := wrap (setSeconds L s (d_ x)) x.

(** The fields of a format string, the UTC ones in UTC mode. *)
Definition fYYYY (x : Dayjs) : string :=
  padStart (ToString (getFullYear (host x) (d_ x))) 4.
Definition fMM (x : Dayjs) : string :=
  padStart (ToString (num_add (getMonth (host x) (d_ x)) 1)) 2.
Definition fDD (x : Dayjs) : string := padStart (ToString (getDate (host x) (d_ x))) 2.
Definition fHH (x : Dayjs) : string := padStart (ToString (getHours (host x) (d_ x))) 2.
Definition fmm (x : Dayjs) : string :=
  padStart (ToString (getMinutes (host x) (d_ x))) 2.
Definition fss (x : Dayjs) : string :=
  padStart (ToString (getSeconds (host x) (d_ x))) 2.

(** The scan of a format string: the tokens [YYYY], [MM], [DD], [HH],
    [mm], [ss] are replaced, any other character is copied. *)
Fixpoint format_scan (fuel : nat) (x : Dayjs) (f : string) : string :=
  match fuel with
  | O => ""
  | S fuel' =>
      if prefix "YYYY" f then fYYYY x ++ format_scan fuel' x (drop 4 f)
      else if prefix "MM" f then fMM x ++ format_scan fuel' x (drop 2 f)
      else if prefix "DD" f then fDD x ++ format_scan fuel' x (drop 2 f)
      else if prefix "HH" f then fHH x ++ format_scan fuel' x (drop 2 f)
      else if prefix "mm" f then fmm x ++ format_scan fuel' x (drop 2 f)
      else if prefix "ss" f then fss x ++ format_scan fuel' x (drop 2 f)
      else match f with
           | EmptyString => ""
           | String c r => String c (format_scan fuel' x r)
           end
  end.

(** [format(f)]: the invalid-date string on an invalid instance. *)
Definition format (f : string) (x : Dayjs) : string :=
  if isValid x then format_scan (S (String.length f)) x f
  else "Invalid Date".

(** [Utils.a] applied to [x / k]: the quotient truncated towards zero. *)
Definition absFloor_div (x k : Z) : Z :=
  if x <? 0 then - ((- x) / k) else x / k.

(** [this.diff(that, "day")]: each instance's own [utcOffset()] is read (on
    the fixed-offset host of the embedding the two agree for instances in
    local mode); the two subtractions are those of doubles, and the quotient
    of a double below [2^54] by 86400000 truncates to the exact quotient. *)
Definition diff_day (this that : Dayjs) : number :=
  match valueOf this, valueOf that, utcOffset this, utcOffset that with
  | Num a, Num b, Num oa, Num ob =>
      let zoneDelta := (ob - oa) * msPerMinute in
      let diff := round53 (a - b) in
      Num (absFloor_div (round53 (diff - zoneDelta)) msPerDay)
  | _, _, _, _ => NaN
  end.

(** [this.isBefore(that)] without unit: [this.endOf(undefined) < that],
    and [endOf(undefined)] is a clone. *)
Definition isBefore (this that : Dayjs) : bool :=
  num_lt (valueOf this) (valueOf that).

(** [this.isSame(that)] without unit:
    [this.startOf() <= that && that <= this.endOf()]. *)
Definition isSame (this that : Dayjs) : bool :=
  num_le (valueOf this) (valueOf that) && num_le (valueOf that) (valueOf this).

End Lib.

End Dayjs.

(** ** The class [DateTime] *)

Module DateTime.

Import ES.

(** What the constructor and [isSameDate] accept:
    [Date | string | null | undefined]. *)
Inductive arg : Type :=
| ADate (d : Date)
| AString (s : string)
| ANull
| AUndefined.

(** An object of the class: its private field [#date]. *)
Record DateTime : Type := mkDateTime { date : Date }.

Section Class.

(** The host's offset from UTC, in minutes. *)
Variable L : Z.

(** The time value of [new Date(string)] in the engine, [NaN] when the
    engine reads no date from the string. *)
Variable Date_parse : string -> number.

(** The time value of the [Date] inside [dayjs(string)]. *)
Variable dayjs_parse : string -> number.

(** [date.toLocaleString("en-US", { timeZone: "Asia/Tokyo" })] for the valid
    date of time value [t]. *)
Variable zone_string : Z -> string.

(** [new Date(string)]. *)
Definition Date_of_string (s : string) : Date := mkDate (Date_parse s).

(** [new Date()] when the clock reads [now]. *)
Definition Date_now (now : Z) : Date := mkDate (Num now).

Definition formatSafariSupport (v : string) : string := replace_dash v.

(** [isDate] on a string. *)
Definition isDate (v : string) : bool :=
  match getTime (Date_of_string v) with
  | NaN => false
  | Num _ => true
  end.

(** [isDate] on a number: [new Date(number)] is valid when the number is
    finite and within the range of time values. *)
Definition isDate_number (v : jsnum) : bool :=
  match v with
  | JFin m e =>
      if 0 <=? e then Z.abs m * 2 ^ e <=? maxTime
      else Z.abs m <=? maxTime * 2 ^ (- e)
  | _ => false
  end.

(** The constructor; [now] is the reading of the clock, used by
    [new Date()]. *)
Definition new_DateTime (now : Z) (a : arg) : DateTime :=
  match a with
  | ADate d => mkDateTime d
  | AString s =>
      let safariSupportDate := formatSafariSupport s in
      if isDate safariSupportDate
      then mkDateTime (Date_of_string safariSupportDate)
      else mkDateTime (Date_now now)
  | ANull | AUndefined => mkDateTime (Date_now now)
  end.

Definition toJpString (v : DateTime) : string :=
  ToString (getFullYear L (date v)) ++ "年"
  ++ ToString (num_add (getMonth L (date v)) 1) ++ "月"
  ++ ToString (getDate L (date v)) ++ "日".

Definition week : list string := ["日"; "月"; "火"; "水"; "木"; "金"; "土"].

(** [week[i]]: [undefined] ([None]) off the array or at [NaN]. *)
Definition week_at (i : number) : option string :=
  match i with
  | NaN => None
  | Num k => if k <? 0 then None else nth_error week (Z.to_nat k)
  end.

Definition toJpStringWithWeek (v : DateTime) : string :=
  match week_at (getDay L (date v)) with
  | None => "ー"
  | Some dayOfWeek => toJpString v ++ "（" ++ dayOfWeek ++ "）"
  end.

(** [localeString[1].match] raises when [localeString[1]] is undefined;
    a missing [mm] would print as ["undefined"]. *)
Definition toOnlyTime (v : DateTime) : result string :=
  let localeString := split " " (toLocaleString_ja L (date v)) in
  match nth_error localeString 1 with
  | None => Throw "TypeError"
  | Some t =>
      if re_hms t then
        match split ":" t with
        | hh :: rest =>
            let mm := match rest with m :: _ => m | [] => "undefined" end in
            Ok (if (String.length hh =? 1)%nat
                then "0" ++ hh ++ ":" ++ mm
                else hh ++ ":" ++ mm)
        | [] => Throw "TypeError"
        end
      else Ok t
  end.

(** [dayjs(this.#date).tz()]. *)
Definition zoned (v : DateTime) : Dayjs.Dayjs :=
  Dayjs.tz L dayjs_parse Date_parse zone_string (Dayjs.of_Date (date v)).

Definition toDateString (v : DateTime) : string :=
  Dayjs.format L "YYYY-MM-DD" (zoned v).

Definition toDateJpString (v : DateTime) : string :=
  Dayjs.format L "YYYY年MM月DD日" (zoned v).

Definition toDateStringWithTime (v : DateTime) : string :=
  Dayjs.format L "YYYY-MM-DD HH:mm" (zoned v).

Definition toDateTimeString (v : DateTime) : string :=
  Dayjs.format L "YYYY-MM-DD HH:mm:ss" (zoned v).

(** [afterDay], [addDate], [subtractDate] and [yearsLaterNewYearsDate] on a
    whole number of days or years; the versions on any number follow
    ([afterDay_number] and the like). *)
Definition afterDay (v : DateTime) (day : Z) : string :=
  Dayjs.format L "YYYY-MM-DD" (Dayjs.add_d L day (zoned v)).

(** The constructor receives a [Date], so the clock is not read. *)
Definition addDate (v : DateTime) (day : Z) : DateTime :=
  new_DateTime 0 (ADate (Dayjs.toDate L (Dayjs.add_d L day (zoned v)))).

Definition subtractDate (v : DateTime) (day : Z) : DateTime :=
  new_DateTime 0 (ADate (Dayjs.toDate L (Dayjs.subtract_d L day (zoned v)))).

(** [now] is the reading of the clock, used by [dayjs()]. *)
Definition yearsLaterNewYearsDate (now : Z) (v : DateTime) (year : Z) : string :=
  Dayjs.format L "YYYY-MM-DD"
    (Dayjs.startOf_year L (Dayjs.add_y L year (Dayjs.of_now now))).

(** The same four methods on any number: [NaN], an infinity or a fraction
    is a [number] too. *)
Definition afterDay_number (v : DateTime) (day : jsnum) : string :=
  Dayjs.format L "YYYY-MM-DD" (Dayjs.add_d_number L day (zoned v)).

Definition addDate_number (v : DateTime) (day : jsnum) : DateTime :=
  new_DateTime 0 (ADate (Dayjs.toDate L (Dayjs.add_d_number L day (zoned v)))).

Definition subtractDate_number (v : DateTime) (day : jsnum) : DateTime :=
  new_DateTime 0
    (ADate (Dayjs.toDate L (Dayjs.subtract_d_number L day (zoned v)))).

Definition yearsLaterNewYearsDate_number (now : Z) (v : DateTime) (year : jsnum)
    : string :=
  Dayjs.format L "YYYY-MM-DD"
    (Dayjs.startOf_year L (Dayjs.add_y_number L year (Dayjs.of_now now))).

Definition toDateName (v : DateTime) : string :=
  Dayjs.format L "YYYYMMDD_HHmmss" (zoned v).

Definition isBefore (v : DateTime) (s : string) : bool :=
  Dayjs.isBefore L (Dayjs.of_Date (date v)) (Dayjs.of_string dayjs_parse s).

Definition DaysDiff (v : DateTime) (s : string) : number :=
  Dayjs.diff_day L (Dayjs.of_Date (date v)) (Dayjs.of_string dayjs_parse s).

Definition isSameDate (now : Z) (v : DateTime) (a : arg) : bool :=
  Dayjs.isSame L (Dayjs.of_Date (date v))
    (Dayjs.of_Date (date (new_DateTime now a))).

(** The slot the loop pushes first at hour [i]. *)
Definition slot_hour (now : Z) (s : string) (i : Z) : Dayjs.Dayjs :=
  Dayjs.second L 0
    (Dayjs.minute L 0
       (Dayjs.hour L i (Dayjs.of_Date (date (new_DateTime now (AString s)))))).

Definition 年月日時分秒 : string := "YYYY-MM-DD HH:mm:ss".

(** The loop [for (let i = 8; i < 20; i++)]; [clock i] is the reading of
    the clock in the iteration of hour [i]. *)
Fixpoint slots_loop (fuel : nat) (clock : Z -> Z) (s : string) (i : Z)
    (timesArray : list string) : list string :=
  match fuel with
  | O => timesArray
  | S fuel' =>
      if i <? 20 then
        let hour := slot_hour (clock i) s i in
        let timesArray := (timesArray ++ [Dayjs.format L 年月日時分秒 hour])%list in
        let time := Dayjs.add_m 30 hour in
        let timesArray := (timesArray ++ [Dayjs.format L 年月日時分秒 time])%list in
        slots_loop fuel' clock s (i + 1) timesArray
      else timesArray
  end.

Definition 美容室入場時間 (clock : Z -> Z) (s : string) : list string :=
  slots_loop (Z.to_nat (20 - 8) + 1) clock s 8 [].

(** *** Every operation of the class

    A call of the class: the constructor, the getter, the two static
    functions and the methods, each with an argument of its declared type. *)
Inductive operation : Type :=
| new_ (a : arg)
| get_date
| formatSafariSupport_ (s : string)
| isDate_ (s : string)
| isDate_number_ (n : jsnum)
| toJpString_
| toJpStringWithWeek_
| toOnlyTime_
| toDateString_
| toDateJpString_
| toDateStringWithTime_
| toDateTimeString_
| afterDay_ (day : jsnum)
| addDate_ (day : jsnum)
| subtractDate_ (day : jsnum)
| yearsLaterNewYearsDate_ (year : jsnum)
| toDateName_
| isBefore_ (s : string)
| DaysDiff_ (s : string)
| isSameDate_ (a : arg)
| 美容室入場時間_ (s : string).

(** What a call returns. *)
Inductive value : Type :=
| VDateTime (v : DateTime)
| VDate (d : Date)
| VString (s : string)
| VNumber (n : number)
| VBoolean (b : bool)
| VStrings (l : list string).

(** The outcome of an operation on the object [v] (the constructor and the
    static functions do not read it); [now] is the reading of the clock
    where an operation reads it once, [clock] its readings in the loop of
    the slot generator. *)
Definition call (now : Z) (clock : Z -> Z) (v : DateTime) (op : operation)
    : result value :=
  match op with
  | new_ a => Ok (VDateTime (new_DateTime now a))
  | get_date => Ok (VDate (date v))
  | formatSafariSupport_ s => Ok (VString (formatSafariSupport s))
  | isDate_ s => Ok (VBoolean (isDate s))
  | isDate_number_ n => Ok (VBoolean (isDate_number n))
  | toJpString_ => Ok (VString (toJpString v))
  | toJpStringWithWeek_ => Ok (VString (toJpStringWithWeek v))
  | toOnlyTime_ =>
      match toOnlyTime v with
      | Ok r => Ok (VString r)
      | Throw e => Throw e
      end
  | toDateString_ => Ok (VString (toDateString v))
  | toDateJpString_ => Ok (VString (toDateJpString v))
  | toDateStringWithTime_ => Ok (VString (toDateStringWithTime v))
  | toDateTimeString_ => Ok (VString (toDateTimeString v))
  | afterDay_ day => Ok (VString (afterDay_number v day))
  | addDate_ day => Ok (VDateTime (addDate_number v day))
  | subtractDate_ day => Ok (VDateTime (subtractDate_number v day))
  | yearsLaterNewYearsDate_ year =>
      Ok (VString (yearsLaterNewYearsDate_number now v year))
  | toDateName_ => Ok (VString (toDateName v))
  | isBefore_ s => Ok (VBoolean (isBefore v s))
  | DaysDiff_ s => Ok (VNumber (DaysDiff v s))
  | isSameDate_ a => Ok (VBoolean (isSameDate now v a))
  | 美容室入場時間_ s => Ok (VStrings (美容室入場時間 clock s))
  end.

End Class.

End DateTime.

Import ES DateTime.

(** ** Definitions used by the statements *)

(** The object holds a valid instant: its time value is not [NaN]. *)
Definition valid_instant (v : DateTime) : Prop :=
  exists t, getTime (date v) = Num t.

(** January and February belong to the previous year of the era. *)
Definition early (m : Z) : Z := if m <=? 2 then 1 else 0.

(** First day of a year of the era. *)
Definition start (y : Z) : Z := 365 * y + y / 4 - y / 100.

(** Day of the March-based year of a month and day. *)
Definition doy_of (m d : Z) : Z := (153 * ((m + 9) mod 12) + 2) / 5 + d - 1.

(** The format of a slot. *)
Definition stamp_format : string := "YYYY-MM-DD HH:mm:ss".

(** A number on two digits, as [HH], [mm] and [ss] print it. *)
Definition pad2 (n : Z) : string := padStart (ToString (Num n)) 2.

(** The business hours of the slot generator. *)
Definition hours : list Z := [8; 9; 10; 11; 12; 13; 14; 15; 16; 17; 18; 19].

(** The two stamps of each hour on the date printed as [D]. *)
Definition expected_slots (D : string) : list string :=
  flat_map
    (fun h => [D ++ " " ++ pad2 h ++ ":00:00"; D ++ " " ++ pad2 h ++ ":30:00"])
    hours.

(** The calendar date of instant [t] in the host's zone, as dayjs prints it. *)
Definition local_date (L t : Z) : string :=
  Dayjs.format L "YYYY-MM-DD" (Dayjs.of_Date (mkDate (Num t))).

(** The host's calendar day of [t] lies within the range of time values. *)
Definition day_in_range (L t : Z) : Prop :=
  - maxTime <= UTC L (MakeDate (Day (LocalTime L t)) 0)
  /\ UTC L (MakeDate (Day (LocalTime L t) + 1) 0) <= maxTime.

(** The instants of the slots of the host's calendar day of [t]: the hour
    and, 30 minutes later, the half hour. *)
Definition slot_instants (L t : Z) : list Z :=
  let lt := LocalTime L t in
  flat_map
    (fun h =>
       let u := UTC L (MakeDate (Day lt) (MakeTime h 0 0 (msFromTime lt))) in
       [u; u + 30 * msPerMinute])
    hours.

(** The stamp of the instant [u]. *)
Definition stamp (L u : Z) : string :=
  Dayjs.format L stamp_format (Dayjs.of_Date (mkDate (Num u))).

(** The hours the loop visits from [i] with [fuel] iterations left. *)
Fixpoint visited (fuel : nat) (i : Z) : list Z :=
  match fuel with
  | O => []
  | S fuel' => if i <? 20 then i :: visited fuel' (i + 1) else []
  end.

(** What one iteration of the loop pushes. *)
Definition pushed (L : Z) (P : string -> number) (clock : Z -> Z) (s : string)
    (i : Z) : list string :=
  [Dayjs.format L stamp_format (slot_hour L P (clock i) s i);
   Dayjs.format L stamp_format (Dayjs.add_m 30 (slot_hour L P (clock i) s i))].

(** The date whose local time has the given day and clock fields. *)
Definition at_ (L day h m s ms : Z) : Date :=
  mkDate (Num (UTC L (MakeDate day (MakeTime h m s ms)))).

(** The date part of a stamp, from the host's calendar day. *)
Definition date_of_day (day : Z) : string :=
  match civil_from_days day with
  | (y, m, d) =>
      padStart (ToString (Num y)) 4 ++ "-"
      ++ padStart (ToString (Num (m - 1 + 1))) 2
      ++ "-" ++ padStart (ToString (Num d)) 2
  end.

(** The slots of 2024-03-01. *)
Definition example_slots : list string :=
  ["2024-03-01 08:00:00"; "2024-03-01 08:30:00"; "2024-03-01 09:00:00";
   "2024-03-01 09:30:00"; "2024-03-01 10:00:00"; "2024-03-01 10:30:00";
   "2024-03-01 11:00:00"; "2024-03-01 11:30:00"; "2024-03-01 12:00:00";
   "2024-03-01 12:30:00"; "2024-03-01 13:00:00"; "2024-03-01 13:30:00";
   "2024-03-01 14:00:00"; "2024-03-01 14:30:00"; "2024-03-01 15:00:00";
   "2024-03-01 15:30:00"; "2024-03-01 16:00:00"; "2024-03-01 16:30:00";
   "2024-03-01 17:00:00"; "2024-03-01 17:30:00"; "2024-03-01 18:00:00";
   "2024-03-01 18:30:00"; "2024-03-01 19:00:00"; "2024-03-01 19:30:00"].

(** The instant of 2024-03-01 10:15:00 on the host's clock. *)
Definition example_instant (L : Z) : Z :=
  UTC L (MakeDate (days_from_civil 2024 3 1) (MakeTime 10 15 0 0)).

(** An engine in Asia/Tokyo on the one string of the example:
    2024-03-01 10:15:00 +09:00 is 1709255700000. *)
Definition example_parse (s : string) : number :=
  if String.eqb s "2024/03/01 10:15:00" then Num 1709255700000 else NaN.

(** The last instant a [Date] can hold, as [toUTCString] prints it; every
    engine reads that form back. *)
Definition last_instant_string : string := "Sat, 13 Sep 275760 00:00:00 GMT".

Definition last_instant_parse (s : string) : number :=
  if String.eqb s last_instant_string then Num maxTime else NaN.

(** An engine that reads the ISO form of 2024-03-01 as midnight UTC and the
    form with slashes as midnight in Asia/Tokyo. *)
Definition spelling_parse (s : string) : number :=
  if String.eqb s "2024-03-01" then Num 1709251200000
  else if String.eqb s "2024/03/01" then Num 1709218800000
  else NaN.

(** The result of an operation has the type the class declares for it;
    the slot generator's has 24 entries. *)
Definition returns (op : operation) (r : value) : bool :=
  match op, r with
  | new_ _, VDateTime _ | addDate_ _, VDateTime _
  | subtractDate_ _, VDateTime _ => true
  | get_date, VDate _ => true
  | isDate_ _, VBoolean _ | isDate_number_ _, VBoolean _
  | isBefore_ _, VBoolean _ | isSameDate_ _, VBoolean _ => true
  | DaysDiff_ _, VNumber _ => true
  | 美容室入場時間_ _, VStrings l => (List.length l =? 24)%nat
  | formatSafariSupport_ _, VString _ | toJpString_, VString _
  | toJpStringWithWeek_, VString _ | toOnlyTime_, VString _
  | toDateString_, VString _ | toDateJpString_, VString _
  | toDateStringWithTime_, VString _ | toDateTimeString_, VString _
  | afterDay_ _, VString _ | yearsLaterNewYearsDate_ _, VString _
  | toDateName_, VString _ => true
  | _, _ => false
  end.

(** The wall-clock time of Asia/Tokyo at instant [t], at +09:00. *)
Definition tokyo_time (t : Z) : Z := t + Dayjs.tokyo * msPerMinute.

(** The same to the second, as a locale string shows it. *)
Definition tokyo_second (t : Z) : Z := tokyo_time t - t mod 1000.

(** At least one day inside the range of time values. *)
Definition in_margin (t : Z) : Prop := Z.abs t <= maxTime - msPerDay.

(** A host between UTC-12 and UTC+14 whose offset is a whole number of
    quarters of an hour. *)
Definition quarter_host (L : Z) : Prop := -720 <= L <= 840 /\ L mod 15 = 0.

(** At instant [t] the engine knows Asia/Tokyo at +09:00: the string it
    prints for [t] in that zone is read back, by [new Date] and by dayjs,
    as the wall clock of [t] at +09:00, taken as a local time of the
    host. *)
Definition reads_tokyo (L : Z) (P Pd : string -> number) (E : Z -> string)
    (t : Z) : Prop :=
  P (E t) = Num (UTC L (tokyo_second t))
  /\ Pd (E t) = Num (UTC L (tokyo_second t)).

(** The hour of a 12-hour clock. *)
Definition hour12 (h : Z) : Z := if h mod 12 =? 0 then 12 else h mod 12.

(** The en-US form [M/D/YYYY, h:mm:ss AM] of a wall-clock time. *)
Definition en_US (T : Z) : string :=
  ToString (Num (MonthFromTime T + 1)) ++ "/" ++ ToString (Num (DateFromTime T))
  ++ "/" ++ ToString (Num (YearFromTime T)) ++ ", "
  ++ ToString (Num (hour12 (HourFromTime T))) ++ ":" ++ pad2 (MinFromTime T)
  ++ ":" ++ pad2 (SecFromTime T)
  ++ (if HourFromTime T <? 12 then " AM" else " PM").

(** An engine that prints every instant in Asia/Tokyo at +09:00. *)
Definition tokyo_string (t : Z) : string := en_US (tokyo_time t).

(** An engine on a host at offset [L] that reads back the strings
    [tokyo_string] prints for the instants of [ts], and no other string. *)
Definition reading_engine (L : Z) (ts : list Z) (s : string) : number :=
  match find (fun t => String.eqb s (tokyo_string t)) ts with
  | Some t => Num (UTC L (tokyo_second t))
  | None => NaN
  end.

(** An engine that prints the year 50 on two digits, as en-US does, and
    reads the string back as a date of 1950, on a host in UTC. *)
Definition short_year_string (t : Z) : string := "6/15/50, 12:00:00 PM".

Definition short_year_parse (s : string) : number :=
  if String.eqb s "6/15/50, 12:00:00 PM"
  then Num (MakeDate (days_from_civil 1950 6 15) (MakeTime 12 0 0 0))
  else NaN.

(** ** Definitions used by the further properties *)

(** Every character of [s] satisfies [p]. *)
Fixpoint all_chars (p : ascii -> bool) (s : string) : bool :=
  match s with
  | EmptyString => true
  | String c r => p c && all_chars p r
  end.

(** The characters of a printed integer. *)
Definition is_numeral (c : ascii) : bool := is_digit c || Ascii.eqb c "-".

(** The characters of a printed date: numerals and [/]. *)
Definition is_date_char (c : ascii) : bool := is_numeral c || Ascii.eqb c "/".

(** The characters of a printed time: digits and [:]. *)
Definition is_time_char (c : ascii) : bool := is_digit c || Ascii.eqb c ":".

(** Two digits. *)
Definition two_digits (s : string) : bool :=
  match s with
  | String a (String b EmptyString) => is_digit a && is_digit b
  | _ => false
  end.

(** One digit or two. *)
Definition one_or_two_digits (s : string) : bool :=
  match s with
  | String a EmptyString => is_digit a
  | _ => two_digits s
  end.

(** What the clock fields print as, checked on one number. *)
Definition prints_as_clock_field (n : Z) : bool :=
  two_digits (pad2 n) && one_or_two_digits (ToString (Num n))
  && String.eqb (pad2 n)
       (if (String.length (ToString (Num n)) =? 1)%nat
        then "0" ++ ToString (Num n) else ToString (Num n)).

Fixpoint zrange (a : Z) (n : nat) : list Z :=
  match n with
  | O => []
  | S k => a :: zrange (a + 1) k
  end.

(** A number on four characters, as [YYYY] prints it. *)
Definition pad4 (n : Z) : string := padStart (ToString (Num n)) 4.

(** [YYYY-MM-DD] of a local time. *)
Definition iso_date (T : Z) : string :=
  pad4 (YearFromTime T) ++ "-" ++ pad2 (MonthFromTime T + 1) ++ "-"
  ++ pad2 (DateFromTime T).

(** [HH:mm] of a local time. *)
Definition iso_minutes (T : Z) : string :=
  pad2 (HourFromTime T) ++ ":" ++ pad2 (MinFromTime T).

(** An instance whose host reads the local time [T] from it. *)
Definition reading (L T : Z) (o : option Z) : Dayjs.Dayjs :=
  Dayjs.mk (mkDate (Num (UTC L T))) o false.

(** The instant at which the wall clock of Asia/Tokyo shows the day number
    [day] and the time of day [time] (milliseconds after midnight). *)
Definition tokyo_instant (day time : Z) : Z :=
  MakeDate day time - Dayjs.tokyo * msPerMinute.

(** [YYYY-MM-DD] of a calendar date. *)
Definition iso_ymd (Y m d : Z) : string :=
  pad4 Y ++ "-" ++ pad2 m ++ "-" ++ pad2 d.

(** A calendar date of a year wholly inside the range of time values. *)
Definition calendar_date (Y m d : Z) : Prop :=
  -271820 <= Y <= 275759 /\ 1 <= m <= 12 /\ 1 <= d <= days_in_month Y m.

(** The month after month [m] of year [Y]. *)
Definition next_month (Y m : Z) : Z * Z := if m =? 12 then (Y + 1, 1) else (Y, m + 1).

(** The name of the weekday of index [k], Sunday first. *)
Definition weekday_name (k : Z) : string := nth (Z.to_nat k) week "ー".

(** The instant at which the wall clock of a host at offset [L] shows the
    day number [day] and the time of day [time]. *)
Definition host_instant (L day time : Z) : Z := UTC L (MakeDate day time).

(** The two stamps of hour [h] on the date the clock shows when the loop
    reaches it. *)
Definition clock_slots (L : Z) (clock : Z -> Z) (h : Z) : list string :=
  [local_date L (clock h) ++ " " ++ pad2 h ++ ":00:00";
   local_date L (clock h) ++ " " ++ pad2 h ++ ":30:00"].

(** An engine in Asia/Tokyo on two strings of 2024-03-01, at 07:00 and at
    21:30. *)
Definition day_parse (s : string) : number :=
  if String.eqb s "2024/03/01 07:00" then Num 1709244000000
  else if String.eqb s "2024/03/01 21:30" then Num 1709296200000
  else NaN.

(** ** The calendar *)

(** Goals on [/] and [mod] by constants: name quotients and remainders,
    then linear arithmetic. *)
Ltac div_lia := Z.div_mod_to_equations; lia.

Lemma doe_of_split yoe m d : doe_of yoe m d = start yoe + doy_of m d.
Proof. unfold doe_of, start, doy_of. lia. Qed.

Lemma is_leap_spec y :
  is_leap y = true <-> y mod 4 = 0 /\ (y mod 100 <> 0 \/ y mod 400 = 0).
Proof.
  unfold is_leap.
  rewrite andb_true_iff, orb_true_iff, negb_true_iff, !Z.eqb_eq, Z.eqb_neq.
  tauto.
Qed.

Lemma is_leap_era k e : is_leap (k + e * 400) = is_leap k.
Proof.
  unfold is_leap.
  replace ((k + e * 400) mod 4) with (k mod 4)
    by (replace (k + e * 400) with (k + (e * 100) * 4) by ring;
        now rewrite Z_mod_plus_full).
  replace ((k + e * 400) mod 100) with (k mod 100)
    by (replace (k + e * 400) with (k + (e * 4) * 100) by ring;
        now rewrite Z_mod_plus_full).
  now rewrite Z_mod_plus_full.
Qed.

(** The year of the era is recovered from any of its days. *)
Lemma year_part doe y :
  0 <= y <= 399 -> start y <= doe < start y + 365 ->
  (doe - doe / 1460 + doe / 36524 - doe / 146096) / 365 = y.
Proof.
  unfold start. intros Hy H.
  div_lia.
Qed.

Lemma year_part_leap doe y :
  0 <= y <= 399 -> is_leap (y + 1) = true -> doe = start y + 365 ->
  (doe - doe / 1460 + doe / 36524 - doe / 146096) / 365 = y.
Proof.
  unfold start. intros Hy Hl H. apply is_leap_spec in Hl.
  div_lia.
Qed.

Lemma month_part doy :
  0 <= doy <= 365 ->
  let mp := (5 * doy + 2) / 153 in
  let d := doy - (153 * mp + 2) / 5 + 1 in
  let m := if mp <? 10 then mp + 3 else mp - 9 in
  1 <= m <= 12 /\ 1 <= d <= 31 /\ doy_of m d = doy /\ (306 <= doy <-> m <= 2).
Proof.
  intros H mp d m. subst d m. unfold doy_of.
  destruct (Z.ltb_spec mp 10); subst mp.
  all: div_lia.
Qed.

(** Every day of the era lies in its year. *)
Lemma year_of_doe doe :
  0 <= doe < daysPerEra ->
  let y := (doe - doe / 1460 + doe / 36524 - doe / 146096) / 365 in
  0 <= y <= 399 /\ start y <= doe <= start y + 365.
Proof.
  intros H. cbv zeta. unfold start, daysPerEra in *.
  div_lia.
Qed.

Lemma month_inv Y m d :
  1 <= m <= 12 -> 1 <= d <= days_in_month Y m ->
  let doy := doy_of m d in
  let mp := (5 * doy + 2) / 153 in
  0 <= doy <= 365 /\ (doy = 365 -> is_leap Y = true) /\ (306 <= doy <-> m <= 2)
  /\ (if mp <? 10 then mp + 3 else mp - 9) = m
  /\ doy - (153 * mp + 2) / 5 + 1 = d.
Proof.
  intros Hm Hd.
  assert (Hcases : m = 1 \/ m = 2 \/ m = 3 \/ m = 4 \/ m = 5 \/ m = 6 \/ m = 7
                   \/ m = 8 \/ m = 9 \/ m = 10 \/ m = 11 \/ m = 12) by lia.
  unfold days_in_month in Hd.
  repeat (destruct Hcases as [-> | Hcases]); try subst m; cbn in Hd;
    try (destruct (is_leap Y) eqn:Hleap); unfold doy_of;
    cbv zeta; (split; [|split; [|split; [|split]]]);
    try discriminate; try reflexivity;
    try (div_lia);
    try (match goal with |- context [(?a <? 10)] => destruct (Z.ltb_spec a 10) end;
         div_lia).
Qed.

(** [days_from_civil] undoes [civil_from_days]. *)
Lemma days_from_civil_from_days z :
  match civil_from_days z with
  | (y, m, d) => 1 <= m <= 12 /\ 1 <= d <= 31 /\ days_from_civil y m d = z
  end.
Proof.
  unfold civil_from_days, civil_of_doe.
  set (z' := z + epochShift).
  assert (Hdoe : 0 <= z' mod daysPerEra < daysPerEra)
    by (apply Z.mod_pos_bound; reflexivity).
  set (doe := z' mod daysPerEra) in *.
  destruct (year_of_doe doe Hdoe) as [Hy Hs].
  set (y := (doe - doe / 1460 + doe / 36524 - doe / 146096) / 365) in *.
  fold (start y).
  assert (Hdoy : 0 <= doe - start y <= 365) by lia.
  destruct (month_part _ Hdoy) as (Hm & Hd & Hinv & Hearly).
  cbv zeta in Hm, Hd, Hinv, Hearly.
  set (mp := (5 * (doe - start y) + 2) / 153) in *.
  set (m := if mp <? 10 then mp + 3 else mp - 9) in *.
  set (d := doe - start y - (153 * mp + 2) / 5 + 1) in *.
  split; [exact Hm|]. split; [exact Hd|].
  unfold days_from_civil.
  set (y' := if m <=? 2 then _ else _).
  assert (Ey : y' = y + (z' / daysPerEra) * 400)
    by (unfold y'; destruct (m <=? 2); lia).
  rewrite Ey.
  rewrite Z.div_add by lia. rewrite Z_mod_plus_full.
  rewrite (Z.div_small y 400), (Z.mod_small y 400) by lia.
  rewrite doe_of_split, Hinv.
  pose proof (Z.div_mod z' daysPerEra ltac:(discriminate)) as E.
  fold doe in E. unfold z' in *. lia.
Qed.

(** [civil_from_days] undoes [days_from_civil] on the dates of the
    calendar. *)
Lemma civil_from_days_from_civil Y m d :
  1 <= m <= 12 -> 1 <= d <= days_in_month Y m ->
  civil_from_days (days_from_civil Y m d) = (Y, m, d).
Proof.
  intros Hm Hd.
  destruct (month_inv Y m d Hm Hd) as (Hdoy & Hleap & Hearly & Hmi & Hdi).
  cbv zeta in *.
  unfold days_from_civil, civil_from_days.
  set (y' := if m <=? 2 then Y - 1 else Y).
  assert (Hyoe : 0 <= y' mod 400 < 400) by (apply Z.mod_pos_bound; reflexivity).
  set (yoe := y' mod 400) in *. set (era := y' / 400).
  assert (HY : Y = yoe + early m + era * 400).
  { pose proof (Z.div_mod y' 400 ltac:(discriminate)) as E.
    fold yoe era in E. unfold y', early in *. destruct (m <=? 2); lia. }
  rewrite doe_of_split.
  set (doy := doy_of m d) in *.
  assert (Hdoe : 0 <= start yoe + doy < daysPerEra /\
                 (start yoe + doy - (start yoe + doy) / 1460
                  + (start yoe + doy) / 36524 - (start yoe + doy) / 146096) / 365 = yoe).
  { destruct (Z.eq_dec doy 365) as [E365|N365].
    - assert (Hl : is_leap (yoe + 1) = true).
      { specialize (Hleap E365). rewrite HY in Hleap.
        assert (Em : early m = 1) by (unfold early; destruct (Z.leb_spec m 2); lia).
        rewrite Em, is_leap_era in Hleap. exact Hleap. }
      split.
      + apply is_leap_spec in Hl. unfold start, daysPerEra.
        div_lia.
      + apply year_part_leap; [lia | exact Hl | lia].
    - split.
      + unfold start, daysPerEra. div_lia.
      + apply year_part; lia. }
  destruct Hdoe as [Hdoe Hyear].
  replace (era * daysPerEra + (start yoe + doy) - epochShift + epochShift)
    with (start yoe + doy + era * daysPerEra) by ring.
  rewrite Z_mod_plus_full, Z.div_add by discriminate.
  rewrite (Z.mod_small _ _ Hdoe), (Z.div_small _ _ Hdoe).
  unfold civil_of_doe. rewrite Hyear.
  fold (start yoe).
  replace (start yoe + doy - start yoe) with doy by ring.
  rewrite Hmi, Hdi. f_equal. f_equal. unfold early in HY. lia.
Qed.


(** ** Time values *)

Lemma TimeClip_in t : Z.abs t <= maxTime -> TimeClip t = Num t.
Proof.
  intros H. unfold TimeClip. now apply Z.leb_le in H as ->.
Qed.


Lemma LocalTime_UTC L x : LocalTime L (UTC L x) = x.
Proof. unfold LocalTime, UTC. lia. Qed.

Lemma MakeDate_Day t : MakeDate (Day t) (TimeWithinDay t) = t.
Proof.
  unfold MakeDate, Day, TimeWithinDay, msPerDay.
  div_lia.
Qed.

Lemma TimeWithinDay_bound t : 0 <= TimeWithinDay t < msPerDay.
Proof. apply Z.mod_pos_bound. reflexivity. Qed.

Lemma Day_MakeDate day time :
  0 <= time < msPerDay -> Day (MakeDate day time) = day.
Proof.
  unfold MakeDate, Day, msPerDay. intros H.
  div_lia.
Qed.


Lemma field_bounds t :
  0 <= HourFromTime t < 24 /\ 0 <= MinFromTime t < 60
  /\ 0 <= SecFromTime t < 60 /\ 0 <= msFromTime t < 1000.
Proof.
  unfold HourFromTime, MinFromTime, SecFromTime, msFromTime, msPerSecond.
  repeat split; apply Z.mod_pos_bound; reflexivity.
Qed.

Lemma MakeTime_bound h m s ms :
  0 <= h < 24 -> 0 <= m < 60 -> 0 <= s < 60 -> 0 <= ms < 1000 ->
  0 <= MakeTime h m s ms < msPerDay.
Proof.
  unfold MakeTime, msPerHour, msPerMinute, msPerSecond, msPerDay. lia.
Qed.

(** The fields of a time built from a day and the four clock fields. *)
Lemma fields_MakeDate day h m s ms :
  0 <= h < 24 -> 0 <= m < 60 -> 0 <= s < 60 -> 0 <= ms < 1000 ->
  let u := MakeDate day (MakeTime h m s ms) in
  Day u = day /\ HourFromTime u = h /\ MinFromTime u = m
  /\ SecFromTime u = s /\ msFromTime u = ms.
Proof.
  intros Hh Hm Hs Hms u. subst u.
  unfold MakeDate, MakeTime, Day, HourFromTime, MinFromTime, SecFromTime,
    msFromTime, msPerHour, msPerMinute, msPerSecond, msPerDay.
  repeat split; div_lia.
Qed.

(** [setDate]'s day: the day of [t] moved by the change of the date. *)
Lemma MakeDay_of_time t dt :
  MakeDay (YearFromTime t) (MonthFromTime t) dt = Day t + (dt - DateFromTime t).
Proof.
  unfold MakeDay, YearFromTime, MonthFromTime, DateFromTime.
  pose proof (days_from_civil_from_days (Day t)) as H.
  destruct (civil_from_days (Day t)) as [[y m] d]. cbn [fst snd].
  destruct H as (Hm & Hd & E).
  replace ((m - 1) / 12) with 0 by (div_lia).
  replace ((m - 1) mod 12 + 1) with m by (div_lia).
  rewrite Z.add_0_r. rewrite <- E.
  unfold days_from_civil. rewrite !doe_of_split. unfold doy_of. lia.
Qed.


(** ** Strings *)

Lemma append_assoc (a b c : string) : (a ++ b) ++ c = a ++ b ++ c.
Proof. induction a as [|x a IH]; cbn; [reflexivity | now rewrite IH]. Qed.

Lemma append_nil_r (s : string) : s ++ "" = s.
Proof. induction s as [|c s IH]; cbn; [reflexivity | now rewrite IH]. Qed.

Lemma replace_dash_idem s : replace_dash (replace_dash s) = replace_dash s.
Proof.
  induction s as [|c s IH]; cbn; [reflexivity|].
  rewrite IH. f_equal.
  destruct (Ascii.eqb_spec c "-") as [->|Hc]; [reflexivity|].
  now apply Ascii.eqb_neq in Hc as ->.
Qed.

Lemma split_nonempty sep s : exists h t, split sep s = h :: t.
Proof.
  destruct s as [|c s]; cbn; [now eexists; eexists|].
  destruct (Ascii.eqb c sep); [now eexists; eexists|].
  destruct (split sep s); now eexists; eexists.
Qed.

Lemma split_second sep a b :
  exists x, nth_error (split sep (a ++ String sep b)) 1 = Some x.
Proof.
  induction a as [|c a [x IH]]; cbn.
  - rewrite Ascii.eqb_refl. cbn.
    destruct (split_nonempty sep b) as (h & t & ->). now exists h.
  - destruct (Ascii.eqb c sep).
    + cbn. destruct (split_nonempty sep (a ++ String sep b)) as (h & t & ->).
      now exists h.
    + destruct (split sep (a ++ String sep b)) as [|h t]; [discriminate|].
      now exists x.
Qed.


(** ** Shifting by days in Asia/Tokyo *)

Lemma round53_small x : Z.abs x <= two53 -> round53 x = x.
Proof.
  intros H. unfold round53. now apply Z.leb_le in H as ->.
Qed.

Lemma odd_mod4 x : Z.even x = false -> x mod 4 = 1 \/ x mod 4 = 3.
Proof.
  intros H. pose proof (Zmod_even x) as E. rewrite H in E. div_lia.
Qed.

(** A rounded difference keeps its sign and its symmetry, and is not
    rounded again. *)
Lemma round53_cases x :
  round53 x = x \/ (two53 < Z.abs x /\ (round53 x = x + 1 \/ round53 x = x - 1)).
Proof.
  unfold round53. destruct (Z.leb_spec (Z.abs x) two53); [now left|].
  destruct (Z.even x); [now left|].
  destruct ((x + 1) mod 4 =? 0); right; auto.
Qed.

Lemma round53_sign x :
  (x < 0 -> round53 x < 0) /\ (0 < x -> 0 < round53 x)
  /\ (x = 0 -> round53 x = 0).
Proof.
  destruct (round53_cases x) as [-> | [H [-> | ->]]]; unfold two53 in *; lia.
Qed.

Lemma round53_opp x : round53 (- x) = - round53 x.
Proof.
  unfold round53. rewrite Z.abs_opp, Z.even_opp.
  destruct (Z.abs x <=? two53); [reflexivity|].
  destruct (Z.even x) eqn:Ev; [reflexivity|].
  destruct (odd_mod4 x Ev) as [H | H];
    destruct (Z.eqb_spec ((- x + 1) mod 4) 0) as [A | A];
    destruct (Z.eqb_spec ((x + 1) mod 4) 0) as [B | B];
    try lia; exfalso; revert A B H; clear; intros; div_lia.
Qed.

Lemma round53_fix y : Z.abs y <= two53 \/ Z.even y = true -> round53 y = y.
Proof.
  unfold round53. intros [H | H]; [now apply Z.leb_le in H as ->|].
  destruct (Z.abs y <=? two53); [reflexivity | now rewrite H].
Qed.

Lemma round53_idem x : round53 (round53 x) = round53 x.
Proof.
  apply round53_fix. unfold round53.
  destruct (Z.leb_spec (Z.abs x) two53); [now left|].
  destruct (Z.even x) eqn:Ev; [now right|].
  destruct ((x + 1) mod 4 =? 0); right;
    [rewrite Z.even_add | rewrite Z.even_sub]; now rewrite Ev.
Qed.

Section DayjsFacts.
Variable L : Z.
Variable P Pd : string -> number.
Variable E : Z -> string.

Lemma setDate_shift w n :
  setDate L (DateFromTime (LocalTime L w) + n) (mkDate (Num w))
  = mkDate (TimeClip (w + n * msPerDay)).
Proof.
  unfold setDate, setter. cbn [getTime]. f_equal. f_equal.
  rewrite MakeDay_of_time.
  replace (DateFromTime (LocalTime L w) + n - DateFromTime (LocalTime L w))
    with n by ring.
  pose proof (MakeDate_Day (LocalTime L w)) as E0.
  unfold MakeDate, UTC, LocalTime in *. lia.
Qed.

Lemma add_d_valid w o n :
  Dayjs.add_d L n (Dayjs.mk (mkDate (Num w)) o false)
  = Dayjs.mk (mkDate (TimeClip (w + n * msPerDay))) o false.
Proof.
  unfold Dayjs.add_d, Dayjs.wrap, Dayjs.host, getDate, getter.
  cbn [Dayjs.d_ Dayjs.offset_ Dayjs.u_ getTime].
  now rewrite setDate_shift.
Qed.

(** The string of [t] is read back one [tokyo] offset away, to the minute. *)
Lemma tokyo_offset_found t :
  quarter_host L ->
  Dayjs.quarter_offset (- L)
  - Dayjs.round_minutes (round53 (t - UTC L (tokyo_second t)))
  = Dayjs.tokyo.
Proof.
  intros [HL H15].
  assert (Ht : t - UTC L (tokyo_second t) = t mod 1000 + (L - Dayjs.tokyo) * msPerMinute)
    by (unfold UTC, tokyo_second, tokyo_time; ring).
  pose proof (Z.mod_pos_bound t 1000 ltac:(lia)) as Hms.
  rewrite Ht, round53_small
    by (unfold two53, Dayjs.tokyo, msPerMinute; lia).
  unfold Dayjs.quarter_offset, Dayjs.round_minutes, Dayjs.tokyo, msPerMinute.
  div_lia.
Qed.

(** Putting the milliseconds back on the wall clock read to the second. *)
Lemma setMilliseconds_second t :
  Z.abs (UTC L (tokyo_time t)) <= maxTime ->
  setMilliseconds L (msFromTime (LocalTime L t))
    (mkDate (Num (UTC L (tokyo_second t))))
  = mkDate (Num (UTC L (tokyo_time t))).
Proof.
  intros Hr. unfold setMilliseconds, setter. cbn [getTime].
  rewrite LocalTime_UTC.
  replace (MakeDate (Day (tokyo_second t))
             (MakeTime (HourFromTime (tokyo_second t)) (MinFromTime (tokyo_second t))
                (SecFromTime (tokyo_second t)) (msFromTime (LocalTime L t))))
    with (tokyo_time t).
  - now rewrite TimeClip_in.
  - unfold MakeDate, MakeTime, Day, HourFromTime, MinFromTime, SecFromTime, msFromTime,
      LocalTime, tokyo_second, tokyo_time, Dayjs.tokyo, msPerDay, msPerHour,
      msPerMinute, msPerSecond.
    div_lia.
Qed.

(** Where the engine knows Asia/Tokyo at +09:00, [tz()] is the shift by
    that offset. *)
Lemma zoned_valid v t :
  quarter_host L ->
  getTime (date v) = Num t ->
  Z.abs t <= maxTime ->
  reads_tokyo L P Pd E t ->
  Z.abs (t + (Dayjs.tokyo - L) * msPerMinute) <= maxTime ->
  zoned L P Pd E v
  = Dayjs.mk (mkDate (Num (t + (Dayjs.tokyo - L) * msPerMinute)))
      (Some Dayjs.tokyo) false.
Proof.
  intros HL Hv Ht [HP HPd] Hr.
  unfold zoned, Dayjs.tz, Dayjs.toDate, Dayjs.of_Date, Dayjs.valueOf, Date_of_number.
  cbn [Dayjs.offset_ Dayjs.d_ getTime]. rewrite Hv, (TimeClip_in t Ht).
  unfold getTimezoneOffset. cbn [getTime]. rewrite HP.
  rewrite (tokyo_offset_found t HL). cbn [Z.eqb Dayjs.tokyo].
  unfold Dayjs.keep_local, Dayjs.set_ms, Dayjs.of_string, Dayjs.wrap, Dayjs.host,
    getMilliseconds, getter.
  cbn [Dayjs.offset_ Dayjs.d_ Dayjs.u_ getTime Z.abs Z.leb Z.compare Pos.compare
         Pos.compare_cont Z.eqb].
  rewrite HPd, setMilliseconds_second.
  - cbn [Dayjs.d_]. do 3 f_equal. unfold UTC, tokyo_time. ring.
  - replace (UTC L (tokyo_time t)) with (t + (Dayjs.tokyo - L) * msPerMinute)
      by (unfold UTC, tokyo_time; ring).
    exact Hr.
Qed.

Lemma zoned_invalid v :
  getTime (date v) = NaN -> zoned L P Pd E v = Dayjs.mk Invalid_Date None true.
Proof.
  intros Hv.
  unfold zoned, Dayjs.tz, Dayjs.utc, Dayjs.toDate, Dayjs.of_Date, Dayjs.valueOf.
  cbn [Dayjs.offset_ Dayjs.d_ getTime]. now rewrite Hv.
Qed.

Lemma toDate_zoned w :
  Dayjs.toDate L (Dayjs.mk (mkDate (Num w)) (Some Dayjs.tokyo) false)
  = mkDate (TimeClip (w - (Dayjs.tokyo - L) * msPerMinute)).
Proof.
  unfold Dayjs.toDate, Dayjs.valueOf, getTimezoneOffset, Date_of_number.
  cbn [Dayjs.offset_ Dayjs.d_ getTime].
  replace (w - (Dayjs.tokyo + - L) * msPerMinute)
    with (w - (Dayjs.tokyo - L) * msPerMinute) by ring.
  reflexivity.
Qed.

(** Shifting a valid value by [n] days, away from the ends of the range. *)
Lemma addDate_valid v t n :
  quarter_host L ->
  getTime (date v) = Num t ->
  reads_tokyo L P Pd E t ->
  in_margin t ->
  in_margin (t + n * msPerDay) ->
  addDate L P Pd E v n = mkDateTime (mkDate (Num (t + n * msPerDay))).
Proof.
  intros HL Hv HE Ht Hn. unfold addDate, new_DateTime.
  pose proof HL as [HL' _].
  unfold in_margin, msPerDay in Ht, Hn.
  assert (Ht' : Z.abs t <= maxTime) by (unfold maxTime in *; lia).
  assert (Hz : Z.abs (t + (Dayjs.tokyo - L) * msPerMinute) <= maxTime)
    by (unfold Dayjs.tokyo, msPerMinute, maxTime in *; lia).
  rewrite (zoned_valid v t HL Hv Ht' HE Hz).
  unfold maxTime in Ht, Hn.
  rewrite add_d_valid, TimeClip_in
    by (unfold Dayjs.tokyo, msPerMinute, msPerDay, maxTime; lia).
  rewrite toDate_zoned, TimeClip_in
    by (unfold Dayjs.tokyo, msPerMinute, msPerDay, maxTime; lia).
  do 3 f_equal. unfold msPerDay. ring.
Qed.

Lemma subtractDate_addDate n v :
  subtractDate L P Pd E v n = addDate L P Pd E v (n * -1).
Proof. reflexivity. Qed.

Lemma addDate_invalid v n :
  getTime (date v) = NaN -> addDate L P Pd E v n = mkDateTime (mkDate NaN).
Proof.
  intros Hv. unfold addDate. now rewrite (zoned_invalid v Hv).
Qed.

End DayjsFacts.

(** Outside that hypothesis [tz()] follows the engine.  A year the engine
    prints on two digits is read back in the 1900s: noon of 0050-06-15 in
    Asia/Tokyo prints as a date of 1950.  A string that [new Date] does not
    read turns the instance to UTC mode: 12345-06-15 03:04:05 UTC prints its
    UTC clock, on a host in Asia/Tokyo too. *)
Lemma zoned_outside_examples :
  toDateString 0 short_year_parse short_year_parse short_year_string
    (mkDateTime (mkDate (Num (MakeDate (days_from_civil 50 6 15) (MakeTime 3 0 0 0)))))
  = "1950-06-15"
  /\ toDateName 540 (fun _ => NaN) (fun _ => NaN) tokyo_string
       (mkDateTime (mkDate (Num 327417649445000)))
     = "123450615_030405".
Proof. split; vm_compute; reflexivity. Qed.

Lemma DateTime_eta v : mkDateTime (mkDate (getTime (date v))) = v.
Proof. now destruct v as [[n]]. Qed.

Lemma absFloor_div_quot x k : 0 < k -> Dayjs.absFloor_div x k = Z.quot x k.
Proof.
  intros Hk. unfold Dayjs.absFloor_div.
  destruct (Z.ltb_spec x 0).
  - rewrite <- (Z.opp_involutive x) at 2.
    rewrite Z.quot_opp_l by lia. rewrite Z.quot_div_nonneg by lia. reflexivity.
  - now rewrite Z.quot_div_nonneg by lia.
Qed.


(** ** The slots of a day *)

Section SlotFacts.
Variable L : Z.
Variable P : string -> number.

Lemma slots_loop_flat_map clock s fuel :
  forall i acc,
    slots_loop L P fuel clock s i acc
    = (acc ++ flat_map (pushed L P clock s) (visited fuel i))%list.
Proof.
  induction fuel as [|fuel IH]; intros i acc; cbn [slots_loop visited].
  - now rewrite app_nil_r.
  - destruct (i <? 20); [|now rewrite app_nil_r].
    rewrite IH. cbn [flat_map]. unfold pushed at 2, stamp_format.
    rewrite <- !app_assoc. reflexivity.
Qed.

Lemma slots_flat_map clock s :
  美容室入場時間 L P clock s = flat_map (pushed L P clock s) hours.
Proof.
  unfold 美容室入場時間. rewrite slots_loop_flat_map. reflexivity.
Qed.

Lemma slots_length clock s : length (美容室入場時間 L P clock s) = 24%nat.
Proof. rewrite slots_flat_map. reflexivity. Qed.

Lemma setter_UTC f x :
  setter L f (mkDate (Num (UTC L x))) = mkDate (TimeClip (UTC L (f x))).
Proof. unfold setter. cbn [getTime]. now rewrite LocalTime_UTC. Qed.

Lemma in_day t time :
  day_in_range L t -> 0 <= time < msPerDay ->
  Z.abs (UTC L (MakeDate (Day (LocalTime L t)) time)) <= maxTime.
Proof.
  unfold day_in_range, UTC, MakeDate. intros [Hlo Hhi] Ht. lia.
Qed.

Lemma MakeDate_fields lt :
  MakeDate (Day lt)
    (MakeTime (HourFromTime lt) (MinFromTime lt) (SecFromTime lt) (msFromTime lt))
  = lt.
Proof.
  unfold MakeDate, MakeTime, Day, HourFromTime, MinFromTime, SecFromTime,
    msFromTime, msPerDay, msPerHour, msPerMinute, msPerSecond.
  div_lia.
Qed.

Lemma at_fields t :
  mkDate (Num t)
  = at_ L (Day (LocalTime L t)) (HourFromTime (LocalTime L t))
      (MinFromTime (LocalTime L t)) (SecFromTime (LocalTime L t))
      (msFromTime (LocalTime L t)).
Proof.
  unfold at_. rewrite MakeDate_fields. unfold UTC, LocalTime.
  do 2 f_equal. ring.
Qed.

Lemma setHours_at t h m s ms i :
  day_in_range L t -> 0 <= h < 24 -> 0 <= m < 60 -> 0 <= s < 60 ->
  0 <= ms < 1000 -> 0 <= i < 24 ->
  setHours L i (at_ L (Day (LocalTime L t)) h m s ms)
  = at_ L (Day (LocalTime L t)) i m s ms.
Proof.
  intros Hr Hh Hm Hs Hms Hi. unfold setHours, at_. rewrite setter_UTC.
  destruct (fields_MakeDate (Day (LocalTime L t)) h m s ms Hh Hm Hs Hms)
    as (E1 & E2 & E3 & E4 & E5).
  rewrite E1, E3, E4, E5.
  now rewrite TimeClip_in by (apply in_day; [exact Hr | now apply MakeTime_bound]).
Qed.

Lemma setMinutes_at t h m s ms i :
  day_in_range L t -> 0 <= h < 24 -> 0 <= m < 60 -> 0 <= s < 60 ->
  0 <= ms < 1000 -> 0 <= i < 60 ->
  setMinutes L i (at_ L (Day (LocalTime L t)) h m s ms)
  = at_ L (Day (LocalTime L t)) h i s ms.
Proof.
  intros Hr Hh Hm Hs Hms Hi. unfold setMinutes, at_. rewrite setter_UTC.
  destruct (fields_MakeDate (Day (LocalTime L t)) h m s ms Hh Hm Hs Hms)
    as (E1 & E2 & E3 & E4 & E5).
  rewrite E1, E2, E4, E5.
  now rewrite TimeClip_in by (apply in_day; [exact Hr | now apply MakeTime_bound]).
Qed.

Lemma setSeconds_at t h m s ms i :
  day_in_range L t -> 0 <= h < 24 -> 0 <= m < 60 -> 0 <= s < 60 ->
  0 <= ms < 1000 -> 0 <= i < 60 ->
  setSeconds L i (at_ L (Day (LocalTime L t)) h m s ms)
  = at_ L (Day (LocalTime L t)) h m i ms.
Proof.
  intros Hr Hh Hm Hs Hms Hi. unfold setSeconds, at_. rewrite setter_UTC.
  destruct (fields_MakeDate (Day (LocalTime L t)) h m s ms Hh Hm Hs Hms)
    as (E1 & E2 & E3 & E4 & E5).
  rewrite E1, E2, E3, E5.
  now rewrite TimeClip_in by (apply in_day; [exact Hr | now apply MakeTime_bound]).
Qed.

Lemma slot_hour_value now s t i :
  P (formatSafariSupport s) = Num t -> day_in_range L t -> 0 <= i < 24 ->
  slot_hour L P now s i
  = Dayjs.mk (at_ L (Day (LocalTime L t)) i 0 0 (msFromTime (LocalTime L t))) None false.
Proof.
  intros HP Hr Hi.
  assert (E : date (new_DateTime P now (AString s)) = mkDate (Num t)).
  { unfold new_DateTime, isDate, Date_of_string. cbn [getTime].
    now rewrite HP. }
  unfold slot_hour. rewrite E. unfold Dayjs.of_Date. cbn [getTime].
  rewrite at_fields.
  destruct (field_bounds (LocalTime L t)) as (Hh & Hm & Hs & Hms).
  unfold Dayjs.second, Dayjs.minute, Dayjs.hour, Dayjs.wrap.
  cbn [Dayjs.d_ Dayjs.offset_].
  rewrite setHours_at, setMinutes_at, setSeconds_at by (assumption || lia).
  reflexivity.
Qed.

Lemma add_m_30_value t i ms :
  day_in_range L t -> 0 <= i < 24 -> 0 <= ms < 1000 ->
  Dayjs.add_m 30 (Dayjs.mk (at_ L (Day (LocalTime L t)) i 0 0 ms) None false)
  = Dayjs.mk (at_ L (Day (LocalTime L t)) i 30 0 ms) None false.
Proof.
  intros Hr Hi Hms. unfold Dayjs.add_m, Dayjs.wrap, Date_of_number, num_add, at_.
  cbn [Dayjs.d_ Dayjs.offset_ getTime].
  replace (UTC L (MakeDate (Day (LocalTime L t)) (MakeTime i 0 0 ms))
           + 30 * msPerMinute)
    with (UTC L (MakeDate (Day (LocalTime L t)) (MakeTime i 30 0 ms)))
    by (unfold UTC, MakeDate, MakeTime; ring).
  now rewrite TimeClip_in by (apply in_day; [exact Hr | apply MakeTime_bound; lia]).
Qed.

Lemma format_date x :
  Dayjs.isValid x = true ->
  Dayjs.format L "YYYY-MM-DD" x
  = Dayjs.fYYYY L x ++ "-" ++ Dayjs.fMM L x ++ "-" ++ Dayjs.fDD L x.
Proof.
  intros H. unfold Dayjs.format. rewrite H.
  rewrite <- (append_nil_r (Dayjs.fDD L x)). reflexivity.
Qed.

Lemma format_stamp x :
  Dayjs.isValid x = true ->
  Dayjs.format L stamp_format x
  = Dayjs.fYYYY L x ++ "-" ++ Dayjs.fMM L x ++ "-" ++ Dayjs.fDD L x ++ " "
    ++ Dayjs.fHH L x ++ ":" ++ Dayjs.fmm L x ++ ":" ++ Dayjs.fss L x.
Proof.
  intros H. unfold Dayjs.format. rewrite H.
  rewrite <- (append_nil_r (Dayjs.fss L x)). reflexivity.
Qed.

Lemma date_fields x t :
  Dayjs.u_ x = false ->
  getTime (Dayjs.d_ x) = Num t ->
  Dayjs.fYYYY L x ++ "-" ++ Dayjs.fMM L x ++ "-" ++ Dayjs.fDD L x
  = date_of_day (Day (LocalTime L t)).
Proof.
  intros Hu H.
  unfold date_of_day, Dayjs.fYYYY, Dayjs.fMM, Dayjs.fDD, Dayjs.host, getFullYear,
    getMonth, getDate, getter.
  rewrite Hu, H. cbn [num_add].
  unfold YearFromTime, MonthFromTime, DateFromTime.
  now destruct (civil_from_days (Day (LocalTime L t))) as [[y m] d].
Qed.

Lemma local_date_of_day t : local_date L t = date_of_day (Day (LocalTime L t)).
Proof.
  unfold local_date. rewrite format_date by reflexivity.
  now apply date_fields.
Qed.

Lemma stamp_at t h m s ms :
  0 <= h < 24 -> 0 <= m < 60 -> 0 <= s < 60 -> 0 <= ms < 1000 ->
  Dayjs.format L stamp_format (Dayjs.mk (at_ L (Day (LocalTime L t)) h m s ms) None false)
  = local_date L t ++ " " ++ pad2 h ++ ":" ++ pad2 m ++ ":" ++ pad2 s.
Proof.
  intros Hh Hm Hs Hms.
  destruct (fields_MakeDate (Day (LocalTime L t)) h m s ms Hh Hm Hs Hms)
    as (E1 & E2 & E3 & E4 & E5).
  set (x := Dayjs.mk (at_ L (Day (LocalTime L t)) h m s ms) None false).
  assert (Hx : getTime (Dayjs.d_ x)
               = Num (UTC L (MakeDate (Day (LocalTime L t)) (MakeTime h m s ms))))
    by reflexivity.
  rewrite format_stamp by reflexivity.
  replace (Dayjs.fYYYY L x ++ "-" ++ Dayjs.fMM L x ++ "-" ++ Dayjs.fDD L x ++ " "
           ++ Dayjs.fHH L x ++ ":" ++ Dayjs.fmm L x ++ ":" ++ Dayjs.fss L x)
    with ((Dayjs.fYYYY L x ++ "-" ++ Dayjs.fMM L x ++ "-" ++ Dayjs.fDD L x) ++ " "
          ++ Dayjs.fHH L x ++ ":" ++ Dayjs.fmm L x ++ ":" ++ Dayjs.fss L x)
    by (now rewrite !append_assoc).
  rewrite (date_fields x _ eq_refl Hx), LocalTime_UTC, E1, <- local_date_of_day.
  unfold Dayjs.fHH, Dayjs.fmm, Dayjs.fss, Dayjs.host, getHours, getMinutes,
    getSeconds, getter, pad2. cbn [Dayjs.u_ x].
  rewrite Hx, LocalTime_UTC, E2, E3, E4. reflexivity.
Qed.

Lemma pushed_value clock s t i :
  P (formatSafariSupport s) = Num t -> day_in_range L t -> 0 <= i < 24 ->
  pushed L P clock s i
  = [local_date L t ++ " " ++ pad2 i ++ ":00:00";
     local_date L t ++ " " ++ pad2 i ++ ":30:00"].
Proof.
  intros HP Hr Hi. unfold pushed.
  destruct (field_bounds (LocalTime L t)) as (_ & _ & _ & Hms).
  rewrite (slot_hour_value _ s t i HP Hr Hi).
  rewrite (add_m_30_value t i _ Hr Hi Hms).
  rewrite !stamp_at by lia. reflexivity.
Qed.

Lemma pushed_instants clock s t i :
  P (formatSafariSupport s) = Num t -> day_in_range L t -> 0 <= i < 24 ->
  pushed L P clock s i
  = map (stamp L)
      [UTC L (MakeDate (Day (LocalTime L t)) (MakeTime i 0 0 (msFromTime (LocalTime L t))));
       UTC L (MakeDate (Day (LocalTime L t)) (MakeTime i 0 0 (msFromTime (LocalTime L t))))
       + 30 * msPerMinute].
Proof.
  intros HP Hr Hi. unfold pushed.
  destruct (field_bounds (LocalTime L t)) as (_ & _ & _ & Hms).
  rewrite (slot_hour_value _ s t i HP Hr Hi).
  rewrite (add_m_30_value t i _ Hr Hi Hms).
  replace (UTC L (MakeDate (Day (LocalTime L t))
                    (MakeTime i 0 0 (msFromTime (LocalTime L t))))
           + 30 * msPerMinute)
    with (UTC L (MakeDate (Day (LocalTime L t))
                   (MakeTime i 30 0 (msFromTime (LocalTime L t)))))
    by (unfold UTC, MakeDate, MakeTime; ring).
  cbn [map]. unfold stamp, Dayjs.of_Date, at_. cbn [getTime]. reflexivity.
Qed.

Lemma flat_map_hours {A : Type} (f g : Z -> list A) :
  (forall i, 0 <= i < 24 -> f i = g i) -> flat_map f hours = flat_map g hours.
Proof.
  intros H. unfold hours. cbn [flat_map]. rewrite !H by lia. reflexivity.
Qed.

Lemma slot_instants_sorted t : Sorted Z.lt (slot_instants L t).
Proof.
  unfold slot_instants, hours. cbn [flat_map app].
  unfold UTC, MakeDate, MakeTime, msPerHour, msPerMinute, msPerSecond, msPerDay.
  repeat (apply Sorted_cons; [|first [apply HdRel_nil | apply HdRel_cons; lia]]).
  apply Sorted_nil.
Qed.

End SlotFacts.

Lemma slots_general L P clock s t :
  P (formatSafariSupport s) = Num t -> day_in_range L t ->
  美容室入場時間 L P clock s = expected_slots (local_date L t)
  /\ length (美容室入場時間 L P clock s) = 24%nat
  /\ 美容室入場時間 L P clock s = map (stamp L) (slot_instants L t)
  /\ Sorted Z.lt (slot_instants L t).
Proof.
  intros HP Hr. split; [|split; [|split]].
  - rewrite slots_flat_map. unfold expected_slots.
    apply flat_map_hours. intros i Hi. now apply pushed_value.
  - apply slots_length.
  - rewrite slots_flat_map. unfold slot_instants.
    rewrite (flat_map_hours (pushed L P clock s) _
               (fun i Hi => pushed_instants L P clock s t i HP Hr Hi)).
    unfold hours. cbn [flat_map map app]. reflexivity.
  - apply slot_instants_sorted.
Qed.

Lemma example_day L :
  -720 <= L <= 840 ->
  Day (LocalTime L (example_instant L)) = 19783 /\ day_in_range L (example_instant L).
Proof.
  intros HL.
  assert (E : Day (LocalTime L (example_instant L)) = 19783).
  { unfold example_instant. rewrite LocalTime_UTC.
    change (days_from_civil 2024 3 1) with 19783.
    apply Day_MakeDate. vm_compute. split; [discriminate | reflexivity]. }
  split; [exact E|].
  unfold day_in_range. rewrite E. unfold UTC, MakeDate, msPerDay, msPerMinute, maxTime.
  lia.
Qed.


(** ** January 1st of a later year *)

Lemma days_in_month_bound Y m : 28 <= days_in_month Y m <= 31.
Proof.
  unfold days_in_month.
  destruct (m =? 2); [destruct (is_leap Y); lia|].
  destruct ((m =? 4) || (m =? 6) || (m =? 9) || (m =? 11)); lia.
Qed.

(** The day numbers of the years that lie wholly inside the range. *)
Lemma days_from_civil_bounds Y m d :
  -271820 <= Y <= 275759 -> 1 <= m <= 12 -> 1 <= d <= 31 ->
  -99999800 <= days_from_civil Y m d <= 99999800.
Proof.
  intros HY Hm Hd. unfold days_from_civil, doe_of, daysPerEra, epochShift.
  destruct (Z.leb_spec m 2).
  - div_lia.
  - div_lia.
Qed.

Lemma MakeDay_month Y m dt :
  1 <= m <= 12 -> MakeDay Y (m - 1) dt = days_from_civil Y m dt.
Proof.
  intros Hm. unfold MakeDay.
  replace ((m - 1) / 12) with 0 by (div_lia).
  replace ((m - 1) mod 12 + 1) with m by (div_lia).
  rewrite Z.add_0_r. unfold days_from_civil. rewrite !doe_of_split.
  unfold doy_of. lia.
Qed.

Section YearFacts.
Variable L : Z.
Hypothesis HL : -720 <= L <= 840.

Lemma in_year_range day time :
  -99999800 <= day <= 99999800 -> 0 <= time < msPerDay ->
  Z.abs (UTC L (MakeDate day time)) <= maxTime.
Proof.
  unfold UTC, MakeDate, msPerDay, msPerMinute, maxTime. lia.
Qed.

(** The instance [add(n, "y")] returns on [dayjs()]. *)
Lemma add_y_value now n :
  let Y := YearFromTime (LocalTime L now) + n in
  -271820 <= Y <= 275759 ->
  exists m dt time,
    1 <= m <= 12 /\ 1 <= dt <= days_in_month Y m /\ 0 <= time < msPerDay
    /\ Dayjs.add_y L n (Dayjs.of_now now)
       = Dayjs.mk (mkDate (Num (UTC L (MakeDate (days_from_civil Y m dt) time)))) None false.
Proof.
  intros Y HY.
  set (lt := LocalTime L now).
  pose proof (days_from_civil_from_days (Day lt)) as H.
  destruct (civil_from_days (Day lt)) as [[y m] d] eqn:E.
  destruct H as (Hm & Hd & _).
  assert (Ey : YearFromTime lt = y) by (unfold YearFromTime; now rewrite E).
  assert (Em : MonthFromTime lt = m - 1) by (unfold MonthFromTime; now rewrite E).
  assert (Ed : DateFromTime lt = d) by (unfold DateFromTime; now rewrite E).
  pose proof (days_in_month_bound Y m) as Hdim.
  exists m, (Z.min d (days_in_month Y m)), (TimeWithinDay lt).
  split; [exact Hm|].
  split; [destruct (Z.min_spec d (days_in_month Y m)) as [[? ->]|[? ->]]; lia|].
  split; [apply TimeWithinDay_bound|].
  unfold Dayjs.add_y, Dayjs.of_now, Dayjs.wrap, setter.
  cbn [Dayjs.d_ Dayjs.offset_ getTime]. fold lt. fold Y.
  rewrite Em, Ed.
  replace (m - 1 + 1) with m by ring.
  rewrite MakeDay_month by exact Hm.
  rewrite TimeClip_in; [reflexivity|].
  apply in_year_range; [|apply TimeWithinDay_bound].
  apply days_from_civil_bounds; [exact HY | exact Hm |].
  match goal with
  | |- context [Z.min ?a (days_in_month ?y ?k)] =>
      pose proof (days_in_month_bound y k);
      destruct (Z.min_spec a (days_in_month y k)) as [[? ->]|[? ->]]; lia
  end.
Qed.

Lemma startOf_year_value Y m dt time o :
  -271820 <= Y <= 275759 -> (Y < 0 \/ 99 < Y) ->
  1 <= m <= 12 -> 1 <= dt <= days_in_month Y m -> 0 <= time < msPerDay ->
  Dayjs.startOf_year L
    (Dayjs.mk (mkDate (Num (UTC L (MakeDate (days_from_civil Y m dt) time)))) o false)
  = Dayjs.mk (mkDate (Num (UTC L (MakeDate (days_from_civil Y 1 1) 0)))) o false.
Proof.
  intros HY H99 Hm Hd Ht.
  unfold Dayjs.startOf_year, Dayjs.wrap, getFullYear, getter.
  cbn [Dayjs.d_ Dayjs.offset_ getTime].
  rewrite LocalTime_UTC. unfold YearFromTime.
  rewrite Day_MakeDate by exact Ht.
  rewrite civil_from_days_from_civil by assumption. cbn [fst].
  unfold Date_of_ymd.
  replace ((0 <=? Y) && (Y <=? 99)) with false
    by (symmetry; apply andb_false_iff; rewrite Z.leb_gt, Z.leb_gt; lia).
  change (MakeDay Y 0 1) with (MakeDay Y (1 - 1) 1).
  rewrite (MakeDay_month Y 1 1) by lia.
  rewrite TimeClip_in; [reflexivity|].
  apply in_year_range; [|unfold msPerDay; lia].
  apply days_from_civil_bounds; lia.
Qed.

Lemma format_new_year Y o :
  Dayjs.format L "YYYY-MM-DD"
    (Dayjs.mk (mkDate (Num (UTC L (MakeDate (days_from_civil Y 1 1) 0)))) o false)
  = padStart (ToString (Num Y)) 4 ++ "-01-01".
Proof.
  rewrite format_date by reflexivity.
  rewrite (date_fields L
             (Dayjs.mk (mkDate (Num (UTC L (MakeDate (days_from_civil Y 1 1) 0)))) o false)
             (UTC L (MakeDate (days_from_civil Y 1 1) 0)) eq_refl eq_refl),
    LocalTime_UTC.
  rewrite Day_MakeDate by (unfold msPerDay; lia).
  unfold date_of_day.
  rewrite civil_from_days_from_civil by (cbn; lia).
  reflexivity.
Qed.
End YearFacts.


(** ** Methods that read the locale string and the weekday *)

Lemma toLocaleString_ja_space L d :
  exists a b, toLocaleString_ja L d = a ++ String " " b.
Proof.
  unfold toLocaleString_ja. destruct (getTime d) as [|t].
  - exists "Invalid", "Date". exact eq_refl.
  - exists (ToString (getFullYear L d) ++ "/" ++ ToString (num_add (getMonth L d) 1)
            ++ "/" ++ ToString (getDate L d)),
      (ToString (getHours L d) ++ ":" ++ padStart (ToString (getMinutes L d)) 2
       ++ ":" ++ padStart (ToString (getSeconds L d)) 2).
    change (String " " ?r) with (" " ++ r).
    now rewrite !append_assoc.
Qed.

Lemma toOnlyTime_returns L v : exists r, toOnlyTime L v = Ok r.
Proof.
  unfold toOnlyTime.
  destruct (toLocaleString_ja_space L (date v)) as (a & b & ->).
  destruct (split_second " " a b) as [t ->].
  destruct (re_hms t); [|now exists t].
  destruct (split_nonempty ":" t) as (hh & rest & ->).
  eexists. reflexivity.
Qed.

Lemma WeekDay_bound t : 0 <= WeekDay t < 7.
Proof. apply Z.mod_pos_bound. reflexivity. Qed.

Lemma week_at_valid k : 0 <= k < 7 -> exists w, In w week /\ week_at (Num k) = Some w.
Proof.
  intros Hk. unfold week_at.
  destruct (Z.ltb_spec k 0); [lia|].
  assert (Hc : k = 0 \/ k = 1 \/ k = 2 \/ k = 3 \/ k = 4 \/ k = 5 \/ k = 6) by lia.
  unfold week.
  repeat (destruct Hc as [-> | Hc]); try subst k;
    (eexists; split; [|reflexivity]); cbn; tauto.
Qed.


(** ** The constructor *)

(** C1, amended.  The constructor never fails.  A [Date] argument is stored
    as it is, so the stored instant is valid exactly when the argument's
    is; from a string the stored instant is always valid: it is the
    engine's reading of the normalised string when the engine reads a date
    from it, and the reading of the clock otherwise; from [null] and
    [undefined] it is the reading of the clock. *)
Theorem new_DateTime_instant :
  forall (P : string -> number) (now : Z) (a : arg),
    match a with
    | ADate d => date (new_DateTime P now a) = d
    | AString s =>
        valid_instant (new_DateTime P now a)
        /\ (isDate P (formatSafariSupport s) = true ->
            getTime (date (new_DateTime P now a)) = P (formatSafariSupport s))
        /\ (isDate P (formatSafariSupport s) = false ->
            getTime (date (new_DateTime P now a)) = Num now)
    | ANull | AUndefined => getTime (date (new_DateTime P now a)) = Num now
    end.
Proof.
  intros P now [d|s| |]; cbn; try reflexivity.
  unfold valid_instant.
  destruct (isDate P (formatSafariSupport s)) eqn:E; cbn.
  - unfold isDate, Date_of_string in E. cbn in E.
    destruct (P (formatSafariSupport s)) as [|t]; [discriminate|].
    repeat split; try discriminate. now exists t.
  - repeat split; try discriminate. now exists now.
Qed.

Lemma new_DateTime_instant_witness :
  getTime (date (new_DateTime (fun _ => NaN) 1700000000000 (AString "not a date")))
  = Num 1700000000000.
Proof.
  exact (proj2 (proj2 (new_DateTime_instant (fun _ => NaN) 1700000000000
                         (AString "not a date"))) eq_refl).
Defined.

(** C1 as stated fails: an invalid [Date] (for instance [new Date(NaN)]) is a
    [Date], and the object built from it holds no valid instant. *)
Lemma new_DateTime_invalid_Date :
  ~ valid_instant (new_DateTime (fun _ => NaN) 1700000000000 (ADate Invalid_Date)).
Proof. intros [t H]. discriminate H. Qed.

(** C3.  Two strings that differ in their separators only ([-] against [/])
    have the same normal form, and the spelling of a string with [/] only
    is its normal form; when the engine reads a date from the normal form,
    the objects built from the two strings are equal, whatever the clock
    reads, and hold the engine's reading of the normal form. *)
Theorem new_DateTime_separators :
  forall (P : string -> number) (s1 s2 : string) (now1 now2 : Z),
    formatSafariSupport s1 = formatSafariSupport s2 ->
    isDate P (formatSafariSupport s1) = true ->
    new_DateTime P now1 (AString s1) = new_DateTime P now2 (AString s2)
    /\ new_DateTime P now1 (AString s1)
       = new_DateTime P now2 (AString (formatSafariSupport s1))
    /\ getTime (date (new_DateTime P now1 (AString s1)))
       = P (formatSafariSupport s1).
Proof.
  intros P s1 s2 now1 now2 E Hd. unfold new_DateTime, formatSafariSupport in *.
  rewrite replace_dash_idem, <- E, Hd. repeat split; reflexivity.
Qed.

Lemma new_DateTime_separators_witness :
  new_DateTime spelling_parse 1 (AString "2024-03-01")
  = new_DateTime spelling_parse 2 (AString "2024/03/01")
  /\ getTime (date (new_DateTime spelling_parse 1 (AString "2024-03-01")))
     = Num 1709218800000.
Proof.
  destruct (new_DateTime_separators spelling_parse "2024-03-01" "2024/03/01" 1 2
              eq_refl eq_refl) as (H1 & _ & H2).
  split; [exact H1 | exact H2].
Defined.

(** ** Comparisons *)

(** The day count of [DaysDiff] on two valid instants. *)
Lemma DaysDiff_quot (L : Z) (P : string -> number) (v : DateTime) (s : string)
    (tv ts : Z) :
  getTime (date v) = Num tv -> P s = Num ts ->
  DaysDiff L P v s = Num (Z.quot (round53 (tv - ts)) msPerDay).
Proof.
  intros Hv Hs.
  unfold DaysDiff, Dayjs.diff_day, Dayjs.of_Date, Dayjs.of_string,
    Dayjs.valueOf, Dayjs.utcOffset, getTimezoneOffset.
  cbn [Dayjs.offset_ Dayjs.d_ Dayjs.u_ getTime]. rewrite Hv, Hs.
  rewrite absFloor_div_quot by reflexivity.
  replace (round53 (tv - ts)
           - (- ((2 * - L + 15) / 30) * 15 - - ((2 * - L + 15) / 30) * 15) * msPerMinute)
    with (round53 (tv - ts)) by ring.
  now rewrite round53_idem.
Qed.

(** C2, amended.  On a host that keeps one offset from UTC, when the object
    holds the instant [tv] and dayjs reads the instant [ts] from the string,
    no more than [2^53] ms (some 285,000 years) away, [DaysDiff] returns
    [tv - ts] in whole days, truncated towards zero: the object's instant
    minus the argument's.  It is positive exactly when the object is at
    least one day later than the argument, negative exactly when it is at
    least one day earlier. *)
Theorem DaysDiff_value :
  forall (L : Z) (P : string -> number) (v : DateTime) (s : string) (tv ts : Z),
    getTime (date v) = Num tv ->
    P s = Num ts ->
    Z.abs (tv - ts) <= two53 ->
    DaysDiff L P v s = Num (Z.quot (tv - ts) msPerDay)
    /\ (0 < Z.quot (tv - ts) msPerDay <-> ts + msPerDay <= tv)
    /\ (Z.quot (tv - ts) msPerDay < 0 <-> tv + msPerDay <= ts).
Proof.
  intros L P v s tv ts Hv Hs Hd. split; [|split].
  - rewrite (DaysDiff_quot L P v s tv ts Hv Hs). now rewrite round53_small.
  - unfold msPerDay. Z.to_euclidean_division_equations. lia.
  - unfold msPerDay. Z.to_euclidean_division_equations. lia.
Qed.

Lemma DaysDiff_value_witness :
  DaysDiff 540 (fun _ => Num 1709391600000)
    (mkDateTime (mkDate (Num 1709218800000))) "2024-03-03"
  = Num (Z.quot (1709218800000 - 1709391600000) msPerDay).
Proof.
  exact (proj1 (DaysDiff_value 540 (fun _ => Num 1709391600000)
                  (mkDateTime (mkDate (Num 1709218800000))) "2024-03-03"
                  1709218800000 1709391600000 eq_refl eq_refl
                  ltac:(unfold two53; lia))).
Defined.

(** C2 as stated fails: the object holds 2024-03-01 00:00 (+09:00), the
    argument is read as 2024-03-03 00:00 (+09:00), two days later; the
    argument minus the object is 2 days, and [DaysDiff] returns -2. *)
Lemma DaysDiff_sign :
  DaysDiff 540 (fun _ => Num 1709391600000)
    (mkDateTime (mkDate (Num 1709218800000))) "2024-03-03" = Num (-2)
  /\ Z.quot (1709391600000 - 1709218800000) msPerDay = 2.
Proof. split; vm_compute; reflexivity. Qed.

(** Beyond [2^53] ms the difference of the two instants is rounded as a
    double is: from the last instant of the range to one millisecond after
    the first, 17279999999999999 ms apart, [DaysDiff] returns 200000000,
    one more than the whole days of the exact difference. *)
Lemma DaysDiff_rounds :
  DaysDiff 540 (fun _ => Num (-8639999999999999)) (mkDateTime (mkDate (Num maxTime)))
    "-271821-04-20T00:00:00.001Z" = Num 200000000
  /\ Z.quot (maxTime - -8639999999999999) msPerDay = 199999999.
Proof. split; vm_compute; reflexivity. Qed.

(** C8.  When dayjs reads the instant [ts] from the string as it is given,
    [isBefore] is true exactly when the object holds an instant strictly
    earlier than [ts]. *)
Theorem isBefore_strictly_earlier :
  forall (L : Z) (P : string -> number) (v : DateTime) (s : string) (ts : Z),
    P s = Num ts ->
    (isBefore L P v s = true <-> exists tv, getTime (date v) = Num tv /\ tv < ts).
Proof.
  intros L P v s ts Hs.
  unfold isBefore, Dayjs.isBefore, Dayjs.of_Date, Dayjs.of_string, Dayjs.valueOf.
  cbn [Dayjs.offset_ Dayjs.d_ getTime]. rewrite Hs.
  destruct (getTime (date v)) as [|tv]; cbn.
  - split; [discriminate | intros (tv & H & _); discriminate].
  - rewrite Z.ltb_lt. split.
    + intros H. now exists tv.
    + intros (tv' & H & Hlt). now injection H as ->.
Qed.

Lemma isBefore_strictly_earlier_witness :
  isBefore 540 (fun _ => Num 1709391600000)
    (mkDateTime (mkDate (Num 1709218800000))) "2024-03-03" = true
  <-> exists tv, Num 1709218800000 = Num tv /\ tv < 1709391600000.
Proof.
  exact (isBefore_strictly_earlier 540 (fun _ => Num 1709391600000)
           (mkDateTime (mkDate (Num 1709218800000))) "2024-03-03"
           1709391600000 eq_refl).
Defined.

(** C10.  [isSameDate] compares instants: it is true exactly when the
    object and the object built from the argument hold the same instant, to
    the millisecond; two different instants compare as not the same, also
    when they fall on the same calendar date. *)
Theorem isSameDate_instants :
  forall (L : Z) (P : string -> number) (now : Z) (v : DateTime) (a : arg),
    (isSameDate L P now v a = true <->
     exists t, getTime (date v) = Num t
               /\ getTime (date (new_DateTime P now a)) = Num t)
    /\ (forall t1 t2,
          getTime (date v) = Num t1 ->
          getTime (date (new_DateTime P now a)) = Num t2 ->
          t1 <> t2 ->
          isSameDate L P now v a = false).
Proof.
  intros L P now v a.
  unfold isSameDate, Dayjs.isSame, Dayjs.of_Date, Dayjs.valueOf.
  cbn [Dayjs.offset_ Dayjs.d_ getTime].
  destruct (getTime (date v)) as [|t1];
    destruct (getTime (date (new_DateTime P now a))) as [|t2]; cbn.
  1-3: split; [split; [discriminate | intros (t & H1 & H2); discriminate]
               | intros ? ? H1 H2; discriminate].
  split.
  - rewrite andb_true_iff, !Z.leb_le. split.
    + intros [H1 H2]. exists t1. split; [reflexivity | f_equal; lia].
    + intros (t & H1 & H2). injection H1 as ->. injection H2 as ->. lia.
  - intros a1 a2 H1 H2 Hne. injection H1 as ->. injection H2 as ->.
    apply andb_false_iff. rewrite !Z.leb_gt. lia.
Qed.

(** 2024-03-01 00:00 and 2024-03-01 10:15 in Asia/Tokyo. *)
Lemma isSameDate_instants_witness :
  toDateString 540 (reading_engine 540 [1709218800000; 1709255700000])
    (reading_engine 540 [1709218800000; 1709255700000]) tokyo_string
    (mkDateTime (mkDate (Num 1709218800000)))
  = toDateString 540 (reading_engine 540 [1709218800000; 1709255700000])
      (reading_engine 540 [1709218800000; 1709255700000]) tokyo_string
      (mkDateTime (mkDate (Num 1709255700000)))
  /\ isSameDate 540 (fun _ => NaN) 0
       (mkDateTime (mkDate (Num 1709218800000)))
       (ADate (mkDate (Num 1709255700000))) = false.
Proof.
  split; [vm_compute; reflexivity|].
  refine (proj2 (isSameDate_instants 540 (fun _ => NaN) 0
                   (mkDateTime (mkDate (Num 1709218800000)))
                   (ADate (mkDate (Num 1709255700000))))
            1709218800000 1709255700000 eq_refl eq_refl _).
  discriminate.
Defined.

(** C7.  [isSameDate] gives the same answer for two strings that differ in
    their separators only, in particular for "2024-03-01" and "2024/03/01",
    whatever the engine reads from strings: its argument goes through the
    constructor.  [isBefore] and [DaysDiff] hand their argument to dayjs as
    it is: [isBefore] compares with dayjs's reading of the raw string, and
    for a reader that tells the two spellings apart both methods tell them
    apart. *)
Theorem isSameDate_separators :
  forall (L : Z) (P Pd : string -> number) (now : Z) (v : DateTime),
    (forall s1 s2,
        formatSafariSupport s1 = formatSafariSupport s2 ->
        isSameDate L P now v (AString s1) = isSameDate L P now v (AString s2))
    /\ isSameDate L P now v (AString "2024-03-01")
       = isSameDate L P now v (AString "2024/03/01")
    /\ (forall s, isBefore L Pd v s = num_lt (getTime (date v)) (Pd s))
    /\ (exists v0, isBefore L spelling_parse v0 "2024-03-01"
                   <> isBefore L spelling_parse v0 "2024/03/01")
    /\ (exists v0, DaysDiff L spelling_parse v0 "2024-03-01"
                   <> DaysDiff L spelling_parse v0 "2024/03/01").
Proof.
  intros L P Pd now v.
  assert (H : forall s1 s2,
             formatSafariSupport s1 = formatSafariSupport s2 ->
             isSameDate L P now v (AString s1) = isSameDate L P now v (AString s2)).
  { intros s1 s2 E. unfold isSameDate, new_DateTime. now rewrite E. }
  split; [exact H|]. split; [now apply H|]. split; [reflexivity|]. split.
  - exists (mkDateTime (mkDate (Num 1709229600000))).
    vm_compute. discriminate.
  - exists (mkDateTime (mkDate (Num 1709323200000))).
    rewrite (DaysDiff_quot L spelling_parse
               (mkDateTime (mkDate (Num 1709323200000))) "2024-03-01"
               1709323200000 1709251200000 eq_refl eq_refl).
    rewrite (DaysDiff_quot L spelling_parse
               (mkDateTime (mkDate (Num 1709323200000))) "2024/03/01"
               1709323200000 1709218800000 eq_refl eq_refl).
    vm_compute. discriminate.
Qed.

Lemma isSameDate_separators_witness :
  isSameDate 540 spelling_parse 0 (mkDateTime (mkDate (Num 1709218800000)))
    (AString "2024-03-01")
  = isSameDate 540 spelling_parse 0 (mkDateTime (mkDate (Num 1709218800000)))
      (AString "2024/03/01").
Proof.
  exact (proj1 (isSameDate_separators 540 spelling_parse spelling_parse 0
                  (mkDateTime (mkDate (Num 1709218800000))))
           "2024-03-01" "2024/03/01" eq_refl).
Defined.

(** ** Calendar arithmetic *)

(** C6, amended.  On a host between UTC-12 and UTC+14 at a whole number of
    quarters of an hour, when the object's instant [t] and [t] shifted by
    [n] days both lie at least one day inside the range of time values and
    the engine knows Asia/Tokyo at +09:00 at both (it prints each in that
    zone and reads the string back as the wall clock at +09:00), and always
    when the object holds no valid instant, [addDate n] followed by
    [subtractDate n] gives back the object, hence the same
    [toDateString]. *)
Theorem addDate_subtractDate :
  forall (L : Z) (P Pd : string -> number) (E : Z -> string) (v : DateTime) (n : Z),
    quarter_host L ->
    (forall t, getTime (date v) = Num t ->
       Z.abs t <= maxTime - msPerDay
       /\ Z.abs (t + n * msPerDay) <= maxTime - msPerDay
       /\ reads_tokyo L P Pd E t
       /\ reads_tokyo L P Pd E (t + n * msPerDay)) ->
    subtractDate L P Pd E (addDate L P Pd E v n) n = v
    /\ toDateString L P Pd E (subtractDate L P Pd E (addDate L P Pd E v n) n)
       = toDateString L P Pd E v.
Proof.
  intros L P Pd E v n HL Hr.
  assert (Eq : subtractDate L P Pd E (addDate L P Pd E v n) n = v).
  { rewrite subtractDate_addDate.
    destruct (getTime (date v)) as [|t] eqn:Hv.
    - rewrite (addDate_invalid L P Pd E v n Hv).
      rewrite (addDate_invalid L P Pd E (mkDateTime (mkDate NaN)) (n * -1) eq_refl).
      rewrite <- (DateTime_eta v), Hv. reflexivity.
    - destruct (Hr t eq_refl) as (Ht & Hn & Et & En).
      rewrite (addDate_valid L P Pd E v t n HL Hv Et Ht Hn).
      rewrite (addDate_valid L P Pd E (mkDateTime (mkDate (Num (t + n * msPerDay))))
                 (t + n * msPerDay) (n * -1) HL eq_refl En Hn)
        by (unfold in_margin;
            replace (t + n * msPerDay + n * -1 * msPerDay) with t by ring; exact Ht).
      rewrite <- (DateTime_eta v), Hv. do 3 f_equal. ring. }
  split; [exact Eq | now rewrite Eq].
Qed.

(** 2024-03-01 10:15 in Asia/Tokyo and 30 days later, on a host in
    Asia/Tokyo whose engine reads back the strings of both instants. *)
Lemma addDate_subtractDate_witness :
  subtractDate 540 (reading_engine 540 [1709255700000; 1711847700000])
    (reading_engine 540 [1709255700000; 1711847700000]) tokyo_string
    (addDate 540 (reading_engine 540 [1709255700000; 1711847700000])
       (reading_engine 540 [1709255700000; 1711847700000]) tokyo_string
       (mkDateTime (mkDate (Num 1709255700000))) 30) 30
  = mkDateTime (mkDate (Num 1709255700000)).
Proof.
  apply (addDate_subtractDate 540 (reading_engine 540 [1709255700000; 1711847700000])
           (reading_engine 540 [1709255700000; 1711847700000]) tokyo_string
           (mkDateTime (mkDate (Num 1709255700000))) 30).
  - split; [lia | reflexivity].
  - intros t H. injection H as <-.
    split; [unfold maxTime, msPerDay; lia|].
    split; [unfold maxTime, msPerDay; lia|].
    split; split; vm_compute; reflexivity.
Defined.

(** C6 as stated fails: 200,000,000 days after 1970-01-01 lie outside the
    range of time values, so [addDate] yields an invalid date, and it stays
    invalid. *)
Lemma addDate_out_of_range :
  toDateString 540 (reading_engine 540 [0]) (reading_engine 540 [0]) tokyo_string
    (mkDateTime (mkDate (Num 0))) = "1970-01-01"
  /\ toDateString 540 (reading_engine 540 [0]) (reading_engine 540 [0]) tokyo_string
       (subtractDate 540 (reading_engine 540 [0]) (reading_engine 540 [0])
          tokyo_string
          (addDate 540 (reading_engine 540 [0]) (reading_engine 540 [0])
             tokyo_string (mkDateTime (mkDate (Num 0))) 200000000)
          200000000)
     = "Invalid Date".
Proof. split; vm_compute; reflexivity. Qed.

(** C5, amended.  On a host between UTC-12 and UTC+14, let [Y] be the year of
    the clock's reading in the host's zone plus [n].  When [Y] is a year that
    lies wholly inside the range of time values (-271820 to 275759) and is
    not one of 0..99, [yearsLaterNewYearsDate n] returns [Y], padded with
    zeros to four characters, followed by "-01-01".  The result never
    depends on the object. *)
Theorem yearsLaterNewYearsDate_value :
  forall (L now : Z) (v : DateTime) (n : Z),
    -720 <= L <= 840 ->
    -271820 <= YearFromTime (LocalTime L now) + n <= 275759 ->
    YearFromTime (LocalTime L now) + n < 0 \/ 99 < YearFromTime (LocalTime L now) + n ->
    yearsLaterNewYearsDate L now v n
    = padStart (ToString (Num (YearFromTime (LocalTime L now) + n))) 4 ++ "-01-01"
    /\ forall v', yearsLaterNewYearsDate L now v' n = yearsLaterNewYearsDate L now v n.
Proof.
  intros L now v n HL HY H99. unfold yearsLaterNewYearsDate.
  split; [|intros v'; exact eq_refl].
  destruct (add_y_value L HL now n HY) as (m & dt & time & Hm & Hd & Ht & ->).
  rewrite startOf_year_value by assumption.
  apply format_new_year.
Qed.

Lemma yearsLaterNewYearsDate_value_witness :
  yearsLaterNewYearsDate 540 1709255700000 (mkDateTime Invalid_Date) 1 = "2025-01-01"
  /\ forall v', yearsLaterNewYearsDate 540 1709255700000 v' 1
                = yearsLaterNewYearsDate 540 1709255700000 (mkDateTime Invalid_Date) 1.
Proof.
  destruct (yearsLaterNewYearsDate_value 540 1709255700000 (mkDateTime Invalid_Date) 1
              ltac:(lia) ltac:(vm_compute; split; discriminate)
              ltac:(right; vm_compute; reflexivity)) as [H1 H2].
  split; [|exact H2]. rewrite H1. vm_compute. reflexivity.
Defined.

(** C5 as stated fails: the clock reads 2024-03-01 10:15 (+09:00).  Year
    302024 is outside the range of time values, and the result is no date;
    year 24 is taken for 1924 by [new Date(24, 0, 1)] in [startOf]. *)
Lemma yearsLaterNewYearsDate_far_years :
  YearFromTime (LocalTime 540 1709255700000) = 2024
  /\ yearsLaterNewYearsDate 540 1709255700000
       (mkDateTime (mkDate (Num 1709255700000))) 300000 = "Invalid Date"
  /\ yearsLaterNewYearsDate 540 1709255700000
       (mkDateTime (mkDate (Num 1709255700000))) (-2000) = "1924-01-01".
Proof. repeat split; vm_compute; reflexivity. Qed.

(** ** The slot generator *)

(** C4, amended.  When the engine reads the instant [t] from the normalised
    string and the host's calendar day of [t] lies within the range of time
    values, the generator returns 24 stamps, all on that day: for each hour
    from 8 to 19 the hour itself and then the half hour, in the format
    YYYY-MM-DD HH:mm:ss; they are the stamps of 24 instants in strictly
    ascending order.  In particular, on a host between UTC-12 and UTC+14 whose
    engine reads "2024/03/01 10:15:00" as local time, the slots of
    "2024-03-01 10:15:00" run from "2024-03-01 08:00:00" and
    "2024-03-01 08:30:00" to "2024-03-01 19:30:00". *)
Theorem slots_of_day :
  forall (L : Z) (P : string -> number) (clock : Z -> Z),
    (forall s t,
        P (formatSafariSupport s) = Num t -> day_in_range L t ->
        美容室入場時間 L P clock s = expected_slots (local_date L t)
        /\ length (美容室入場時間 L P clock s) = 24%nat
        /\ 美容室入場時間 L P clock s = map (stamp L) (slot_instants L t)
        /\ Sorted Z.lt (slot_instants L t))
    /\ (-720 <= L <= 840 ->
        P "2024/03/01 10:15:00" = Num (example_instant L) ->
        美容室入場時間 L P clock "2024-03-01 10:15:00" = example_slots).
Proof.
  intros L P clock. split.
  - intros s t. apply slots_general.
  - intros HL HP. destruct (example_day L HL) as [E Hr].
    destruct (slots_general L P clock "2024-03-01 10:15:00" (example_instant L) HP Hr)
      as [-> _].
    rewrite local_date_of_day, E. vm_compute. reflexivity.
Qed.

Lemma slots_of_day_witness :
  (example_parse (formatSafariSupport "2024-03-01 10:15:00") = Num 1709255700000
   /\ day_in_range 540 1709255700000)
  /\ 美容室入場時間 540 example_parse (fun _ => 0) "2024-03-01 10:15:00"
     = expected_slots (local_date 540 1709255700000)
  /\ 美容室入場時間 540 example_parse (fun _ => 0) "2024-03-01 10:15:00"
     = example_slots.
Proof.
  assert (Hr : day_in_range 540 1709255700000)
    by (vm_compute; split; discriminate).
  split; [split; [reflexivity | exact Hr]|]. split.
  - exact (proj1 (proj1 (slots_of_day 540 example_parse (fun _ => 0))
                    "2024-03-01 10:15:00" 1709255700000 eq_refl Hr)).
  - refine (proj2 (slots_of_day 540 example_parse (fun _ => 0)) _ eq_refl). lia.
Defined.

(** C4 as stated fails: the string is read as the last instant of the range,
    09:00 in Asia/Tokyo; the slots after 09:00 are no time values, and
    their stamps are no dates. *)
Lemma slots_at_range_end :
  last_instant_parse (formatSafariSupport last_instant_string) = Num maxTime
  /\ 美容室入場時間 540 last_instant_parse (fun _ => 0) last_instant_string
     = ["275760-09-13 08:00:00"; "275760-09-13 08:30:00"; "275760-09-13 09:00:00";
        "Invalid Date"; "Invalid Date"; "Invalid Date"; "Invalid Date"; "Invalid Date";
        "Invalid Date"; "Invalid Date"; "Invalid Date"; "Invalid Date"; "Invalid Date";
        "Invalid Date"; "Invalid Date"; "Invalid Date"; "Invalid Date"; "Invalid Date";
        "Invalid Date"; "Invalid Date"; "Invalid Date"; "Invalid Date"; "Invalid Date";
        "Invalid Date"]
  /\ 美容室入場時間 540 last_instant_parse (fun _ => 0) last_instant_string
     <> expected_slots (local_date 540 maxTime).
Proof.
  split; [reflexivity|]. split; [vm_compute; reflexivity|].
  vm_compute. discriminate.
Qed.

(** ** Totality *)

(** A token found at the head of a format leaves a shorter format. *)
Lemma prefix_drop p : forall f,
  prefix p f = true ->
  (String.length (Dayjs.drop (String.length p) f) + String.length p
   = String.length f)%nat.
Proof.
  induction p as [|a p IH]; intros f H; cbn [String.length Dayjs.drop].
  - lia.
  - destruct f as [|b f]; [discriminate H|]. cbn [prefix] in H.
    destruct (ascii_dec a b); [|discriminate H].
    specialize (IH f H). cbn [String.length]. lia.
Qed.

(** The scan of a format ends before its fuel does: more fuel changes
    nothing. *)
Lemma format_scan_fuel L x : forall k1 f k2,
  (String.length f < k1)%nat -> (String.length f < k2)%nat ->
  Dayjs.format_scan L k1 x f = Dayjs.format_scan L k2 x f.
Proof.
  induction k1 as [|k1 IH]; intros f k2 H1 H2; [lia|].
  destruct k2 as [|k2]; [lia|]. cbn [Dayjs.format_scan].
  repeat match goal with
         | |- (if prefix ?p f then _ else _) = _ =>
             let Hp := fresh "Hp" in
             destruct (prefix p f) eqn:Hp;
             [ f_equal; apply IH; apply prefix_drop in Hp;
               cbn [String.length] in Hp; lia | ]
         end.
  destruct f as [|c r]; [reflexivity|].
  f_equal. apply IH; cbn [String.length] in *; lia.
Qed.

(** A whole number of days or years passed as a number. *)
Lemma round_half_up_whole n : round_half_up n 0 = n.
Proof. unfold round_half_up. cbn [Z.leb Z.compare]. cbn. lia. Qed.

Lemma add_trunc_whole y n : Z.abs (y + n) < two53 -> add_trunc y n 0 = y + n.
Proof.
  intros H. unfold add_trunc, round_sig.
  replace (Z.min 0 0) with 0 by reflexivity.
  replace (y * 2 ^ (- 0) + n * 2 ^ (0 - 0)) with (y + n) by (cbn; ring).
  assert (Hk : Z.log2 (Z.abs (y + n)) + 1 - 53 <= 0).
  { destruct (Z.eq_dec (Z.abs (y + n)) 0) as [-> | Hne]; [cbn; lia|].
    assert (Z.log2 (Z.abs (y + n)) < 53); [|lia].
    apply Z.log2_lt_pow2; [lia|]. exact H. }
  apply Z.leb_le in Hk as ->. cbn [fst snd]. cbn. ring.
Qed.

Section Numbers.
Variable L : Z.
Variable P Pd : string -> number.
Variable E : Z -> string.

Lemma afterDay_number_whole v n :
  afterDay_number L P Pd E v (whole n) = afterDay L P Pd E v n.
Proof.
  unfold afterDay_number, afterDay, whole, Dayjs.add_d_number.
  now rewrite round_half_up_whole.
Qed.

Lemma addDate_number_whole v n :
  addDate_number L P Pd E v (whole n) = addDate L P Pd E v n.
Proof.
  unfold addDate_number, addDate, whole, Dayjs.add_d_number.
  now rewrite round_half_up_whole.
Qed.

Lemma subtractDate_number_whole v n :
  subtractDate_number L P Pd E v (whole n) = subtractDate L P Pd E v n.
Proof.
  unfold subtractDate_number, subtractDate, whole, Dayjs.subtract_d_number,
    Dayjs.subtract_d, Dayjs.add_d_number, Dayjs.negate.
  rewrite round_half_up_whole. now replace (- n) with (n * -1) by ring.
Qed.

Lemma yearsLaterNewYearsDate_number_whole now v n :
  Z.abs (YearFromTime (LocalTime L now) + n) < two53 ->
  yearsLaterNewYearsDate_number L now v (whole n)
  = yearsLaterNewYearsDate L now v n.
Proof.
  intros H.
  unfold yearsLaterNewYearsDate_number, yearsLaterNewYearsDate, whole,
    Dayjs.add_y_number, Dayjs.of_now, getFullYear, getter.
  cbn [Dayjs.d_ getTime]. rewrite (add_trunc_whole _ _ H).
  now replace (YearFromTime (LocalTime L now) + n - YearFromTime (LocalTime L now))
    with n by ring.
Qed.

End Numbers.




(** * Further properties of the class *)

(** ** The characters of printed numbers *)

Lemma in_zrange (n : nat) : forall a x,
  a <= x < a + Z.of_nat n -> In x (zrange a n).
Proof.
  induction n as [|k IH]; intros a x Hx; [lia|].
  cbn [zrange In]. destruct (Z.eq_dec a x) as [->|Hne]; [now left|right].
  apply IH. lia.
Qed.

Lemma clock_fields_print : forallb prints_as_clock_field (zrange 0 60) = true.
Proof. vm_compute. reflexivity. Qed.

Lemma clock_field n : 0 <= n < 60 -> prints_as_clock_field n = true.
Proof.
  intros H. pose proof clock_fields_print as A.
  rewrite forallb_forall in A. apply A. apply in_zrange. cbn. lia.
Qed.

Lemma all_chars_app p a b :
  all_chars p (a ++ b) = all_chars p a && all_chars p b.
Proof.
  induction a as [|c a IH]; cbn; [reflexivity|].
  now rewrite IH, andb_assoc.
Qed.

Lemma all_chars_weaken (p q : ascii -> bool) s :
  (forall c, p c = true -> q c = true) -> all_chars p s = true -> all_chars q s = true.
Proof.
  intros H. induction s as [|c s IH]; cbn; [reflexivity|].
  rewrite !andb_true_iff. intros [Hc Hs]. split; [now apply H | now apply IH].
Qed.

Lemma uint_digits d : all_chars is_digit (NilEmpty.string_of_uint d) = true.
Proof. induction d; cbn; try reflexivity; exact IHd. Qed.

Lemma ToString_numerals z : all_chars is_numeral (ToString (Num z)) = true.
Proof.
  unfold ToString, NilZero.string_of_int.
  assert (H : forall d, all_chars is_numeral (NilZero.string_of_uint d) = true).
  { intros d. apply (all_chars_weaken is_digit).
    - intros c Hc. unfold is_numeral. now rewrite Hc.
    - destruct d; try apply uint_digits. reflexivity. }
  destruct (Z.to_int z); [apply H|]. cbn [all_chars]. now rewrite H.
Qed.

Lemma zeros_chars p k :
  p "0"%char = true -> all_chars p (String.concat "" (repeat "0" k)) = true.
Proof.
  intros H0. induction k as [|k IH]; [reflexivity|].
  destruct k as [|k]; [cbn; now rewrite H0|].
  change (String.concat "" (repeat "0" (S (S k))))
    with (String "0" (String.concat "" (repeat "0" (S k)))).
  cbn [all_chars]. now rewrite H0, IH.
Qed.

Lemma padStart_chars p s len :
  p "0"%char = true -> all_chars p s = true -> all_chars p (padStart s len) = true.
Proof.
  intros H0 Hs. unfold padStart. destruct (len <=? String.length s)%nat; [exact Hs|].
  now rewrite all_chars_app, Hs, zeros_chars.
Qed.

Lemma split_no_sep sep s :
  all_chars (fun c => negb (Ascii.eqb c sep)) s = true -> split sep s = [s].
Proof.
  induction s as [|c s IH]; cbn; [reflexivity|].
  rewrite andb_true_iff, negb_true_iff. intros [-> Hs]. now rewrite IH.
Qed.

Lemma split_app_sep sep a b :
  all_chars (fun c => negb (Ascii.eqb c sep)) a = true ->
  split sep (a ++ String sep b) = a :: split sep b.
Proof.
  induction a as [|c a IH]; cbn.
  - intros _. now rewrite Ascii.eqb_refl.
  - rewrite andb_true_iff, negb_true_iff. intros [-> Ha]. now rewrite IH.
Qed.

Lemma is_digit_not_colon c : is_digit c = true -> Ascii.eqb c ":" = false.
Proof.
  intros H. destruct (Ascii.eqb_spec c ":") as [->|]; [discriminate H | reflexivity].
Qed.

Lemma is_digit_colon : is_digit ":" = false.
Proof. reflexivity. Qed.

(** The time of a locale string, matched and split. *)
Lemma time_part_split h m s :
  one_or_two_digits h = true -> two_digits m = true -> two_digits s = true ->
  re_hms (h ++ ":" ++ m ++ ":" ++ s) = true
  /\ split ":" (h ++ ":" ++ m ++ ":" ++ s) = [h; m; s].
Proof.
  intros Hh Hm Hs.
  destruct m as [|m1 [|m2 [|? ?]]]; try discriminate Hm.
  destruct s as [|s1 [|s2 [|? ?]]]; try discriminate Hs.
  cbn in Hm, Hs. apply andb_true_iff in Hm as [Hm1 Hm2].
  apply andb_true_iff in Hs as [Hs1 Hs2].
  pose proof (is_digit_not_colon _ Hm1). pose proof (is_digit_not_colon _ Hm2).
  pose proof (is_digit_not_colon _ Hs1). pose proof (is_digit_not_colon _ Hs2).
  destruct h as [|h1 [|h2 [|? ?]]]; try discriminate Hh; cbn in Hh.
  - pose proof (is_digit_not_colon _ Hh).
    unfold re_hms, re_tail. cbn.
    repeat (first [rewrite is_digit_colon
                  | match goal with H : _ = _ |- _ => rewrite H end]; cbn).
    split; reflexivity.
  - apply andb_true_iff in Hh as [Hh1 Hh2].
    pose proof (is_digit_not_colon _ Hh1). pose proof (is_digit_not_colon _ Hh2).
    unfold re_hms, re_tail. cbn.
    repeat (first [rewrite is_digit_colon
                  | match goal with H : _ = _ |- _ => rewrite H end]; cbn).
    split; reflexivity.
Qed.

(** ** The locale string and [toOnlyTime] *)

Lemma two_digits_chars s : two_digits s = true -> all_chars is_digit s = true.
Proof.
  destruct s as [|a [|b [|? ?]]]; try discriminate. cbn.
  now rewrite andb_true_r.
Qed.

Lemma one_or_two_digits_chars s :
  one_or_two_digits s = true -> all_chars is_digit s = true.
Proof.
  destruct s as [|a [|b r]]; try discriminate.
  - cbn. now rewrite andb_true_r.
  - apply two_digits_chars.
Qed.

Lemma not_space_of (p : ascii -> bool) s :
  p " "%char = false -> all_chars p s = true ->
  all_chars (fun c => negb (Ascii.eqb c " ")) s = true.
Proof.
  intros Hp. apply all_chars_weaken. intros c Hc.
  destruct (Ascii.eqb_spec c " ") as [->|]; [congruence | reflexivity].
Qed.

Lemma clock_field_shapes n :
  0 <= n < 60 ->
  two_digits (pad2 n) = true /\ one_or_two_digits (ToString (Num n)) = true
  /\ pad2 n = (if (String.length (ToString (Num n)) =? 1)%nat
               then "0" ++ ToString (Num n) else ToString (Num n)).
Proof.
  intros H. pose proof (clock_field n H) as A. unfold prints_as_clock_field in A.
  apply andb_true_iff in A as [A A3]. apply andb_true_iff in A as [A1 A2].
  apply String.eqb_eq in A3. auto.
Qed.

Section LocaleString.
Variable L : Z.

(** The locale string of a valid date: a date without blank, a blank, a time
    without blank. *)
Lemma toLocaleString_ja_parts d t :
  getTime d = Num t ->
  split " " (toLocaleString_ja L d)
  = [ToString (getFullYear L d) ++ "/" ++ ToString (num_add (getMonth L d) 1)
     ++ "/" ++ ToString (getDate L d);
     ToString (Num (HourFromTime (LocalTime L t))) ++ ":"
     ++ pad2 (MinFromTime (LocalTime L t)) ++ ":"
     ++ pad2 (SecFromTime (LocalTime L t))].
Proof.
  intros H. destruct (field_bounds (LocalTime L t)) as (Hh & Hm & Hs & _).
  destruct (clock_field_shapes _ Hm) as (Em & _ & _).
  destruct (clock_field_shapes _ Hs) as (Es & _ & _).
  assert (Eh : one_or_two_digits (ToString (Num (HourFromTime (LocalTime L t)))) = true)
    by (apply clock_field_shapes; lia).
  unfold toLocaleString_ja, getFullYear, getMonth, getDate, getHours, getMinutes,
    getSeconds, getter. rewrite H. cbn [num_add]. fold (pad2 (MinFromTime (LocalTime L t))).
  fold (pad2 (SecFromTime (LocalTime L t))).
  set (Y := ToString (Num (YearFromTime (LocalTime L t)))).
  set (M := ToString (Num (MonthFromTime (LocalTime L t) + 1))).
  set (D := ToString (Num (DateFromTime (LocalTime L t)))).
  set (time := ToString (Num (HourFromTime (LocalTime L t))) ++ ":"
               ++ pad2 (MinFromTime (LocalTime L t)) ++ ":"
               ++ pad2 (SecFromTime (LocalTime L t))).
  replace (Y ++ "/" ++ M ++ "/" ++ D ++ " " ++ time)
    with ((Y ++ "/" ++ M ++ "/" ++ D) ++ String " " time)
    by (now rewrite !append_assoc).
  rewrite split_app_sep.
  - rewrite split_no_sep; [reflexivity|].
    apply (not_space_of is_time_char); [reflexivity|]. unfold time.
    rewrite !all_chars_app.
    rewrite (all_chars_weaken is_digit is_time_char _
               (fun c Hc => eq_trans (f_equal (fun b => b || _) Hc) eq_refl)
               (one_or_two_digits_chars _ Eh)).
    rewrite (all_chars_weaken is_digit is_time_char _
               (fun c Hc => eq_trans (f_equal (fun b => b || _) Hc) eq_refl)
               (two_digits_chars _ Em)).
    rewrite (all_chars_weaken is_digit is_time_char _
               (fun c Hc => eq_trans (f_equal (fun b => b || _) Hc) eq_refl)
               (two_digits_chars _ Es)).
    reflexivity.
  - apply (not_space_of is_date_char); [reflexivity|].
    assert (N : forall z, all_chars is_date_char (ToString (Num z)) = true).
    { intros z. apply (all_chars_weaken is_numeral); [|apply ToString_numerals].
      intros c Hc. unfold is_date_char. now rewrite Hc. }
    unfold Y, M, D. rewrite !all_chars_app, !N. reflexivity.
Qed.

End LocaleString.

Lemma toOnlyTime_valid L v t :
  getTime (date v) = Num t ->
  toOnlyTime L v
  = Ok (pad2 (HourFromTime (LocalTime L t)) ++ ":" ++ pad2 (MinFromTime (LocalTime L t))).
Proof.
  intros H. unfold toOnlyTime. rewrite (toLocaleString_ja_parts L _ t H).
  cbn [nth_error].
  destruct (field_bounds (LocalTime L t)) as (Hh & Hm & Hs & _).
  destruct (clock_field_shapes (HourFromTime (LocalTime L t)) ltac:(lia))
    as (_ & Sh & Eh).
  destruct (clock_field_shapes _ Hm) as (Sm & _ & _).
  destruct (clock_field_shapes _ Hs) as (Ss & _ & _).
  destruct (time_part_split _ _ _ Sh Sm Ss) as [-> ->].
  rewrite Eh.
  destruct (String.length (ToString (Num (HourFromTime (LocalTime L t)))) =? 1)%nat;
    reflexivity.
Qed.

(** X1.  On an object that holds a valid instant, [toOnlyTime] returns the
    hour and the minute of the host's wall clock at that instant, each on
    two digits, joined by a colon: the one-digit hour of the locale string
    is padded with a zero and the seconds are dropped. *)
Theorem toOnlyTime_value :
  forall (L : Z) (v : DateTime) (t : Z),
    getTime (date v) = Num t ->
    toOnlyTime L v
    = Ok (pad2 (HourFromTime (LocalTime L t)) ++ ":"
          ++ pad2 (MinFromTime (LocalTime L t))).
Proof. intros L v t. apply toOnlyTime_valid. Qed.

Lemma toOnlyTime_value_witness :
  toOnlyTime 540 (mkDateTime (mkDate (Num 1709251530000))) = Ok "09:05".
Proof.
  rewrite (toOnlyTime_value 540 (mkDateTime (mkDate (Num 1709251530000)))
             1709251530000 eq_refl).
  vm_compute. reflexivity.
Defined.

(** ** The formats of a zoned instance *)

Section ZonedFormats.
Variable L : Z.

Lemma reading_fields T o :
  Dayjs.fYYYY L (reading L T o) = pad4 (YearFromTime T)
  /\ Dayjs.fMM L (reading L T o) = pad2 (MonthFromTime T + 1)
  /\ Dayjs.fDD L (reading L T o) = pad2 (DateFromTime T)
  /\ Dayjs.fHH L (reading L T o) = pad2 (HourFromTime T)
  /\ Dayjs.fmm L (reading L T o) = pad2 (MinFromTime T)
  /\ Dayjs.fss L (reading L T o) = pad2 (SecFromTime T).
Proof.
  unfold Dayjs.fYYYY, Dayjs.fMM, Dayjs.fDD, Dayjs.fHH, Dayjs.fmm, Dayjs.fss,
    Dayjs.host, getFullYear, getMonth, getDate, getHours, getMinutes, getSeconds,
    getter, reading.
  cbn [Dayjs.d_ Dayjs.u_ getTime num_add]. rewrite LocalTime_UTC.
  unfold pad4, pad2. repeat split.
Qed.

Lemma format_reading_date T o :
  Dayjs.format L "YYYY-MM-DD" (reading L T o) = iso_date T.
Proof.
  rewrite format_date by reflexivity.
  destruct (reading_fields T o) as (E1 & E2 & E3 & _).
  unfold iso_date. now rewrite E1, E2, E3.
Qed.

Lemma format_reading_minutes T o :
  Dayjs.format L "YYYY-MM-DD HH:mm" (reading L T o)
  = iso_date T ++ " " ++ iso_minutes T.
Proof.
  unfold Dayjs.format. cbn [Dayjs.isValid reading Dayjs.d_ getTime].
  fold (reading L T o).
  transitivity (Dayjs.fYYYY L (reading L T o) ++ "-" ++ Dayjs.fMM L (reading L T o)
                ++ "-" ++ Dayjs.fDD L (reading L T o) ++ " "
                ++ Dayjs.fHH L (reading L T o) ++ ":" ++ Dayjs.fmm L (reading L T o)).
  - rewrite <- (append_nil_r (Dayjs.fmm L (reading L T o))). reflexivity.
  - destruct (reading_fields T o) as (-> & -> & -> & -> & -> & _).
    unfold iso_date, iso_minutes. now rewrite !append_assoc.
Qed.

Lemma format_reading_seconds T o :
  Dayjs.format L "YYYY-MM-DD HH:mm:ss" (reading L T o)
  = iso_date T ++ " " ++ iso_minutes T ++ ":" ++ pad2 (SecFromTime T).
Proof.
  change "YYYY-MM-DD HH:mm:ss" with stamp_format.
  rewrite format_stamp by reflexivity.
  destruct (reading_fields T o) as (-> & -> & -> & -> & -> & ->).
  unfold iso_date, iso_minutes. now rewrite !append_assoc.
Qed.

Lemma format_reading_jp T o :
  Dayjs.format L "YYYY年MM月DD日" (reading L T o)
  = pad4 (YearFromTime T) ++ "年" ++ pad2 (MonthFromTime T + 1) ++ "月"
    ++ pad2 (DateFromTime T) ++ "日".
Proof.
  unfold Dayjs.format. cbn [Dayjs.isValid reading Dayjs.d_ getTime].
  fold (reading L T o).
  transitivity (Dayjs.fYYYY L (reading L T o) ++ "年" ++ Dayjs.fMM L (reading L T o)
                ++ "月" ++ Dayjs.fDD L (reading L T o) ++ "日").
  - reflexivity.
  - destruct (reading_fields T o) as (-> & -> & -> & _). reflexivity.
Qed.

Lemma format_reading_name T o :
  Dayjs.format L "YYYYMMDD_HHmmss" (reading L T o)
  = pad4 (YearFromTime T) ++ pad2 (MonthFromTime T + 1) ++ pad2 (DateFromTime T)
    ++ "_" ++ pad2 (HourFromTime T) ++ pad2 (MinFromTime T) ++ pad2 (SecFromTime T).
Proof.
  unfold Dayjs.format. cbn [Dayjs.isValid reading Dayjs.d_ getTime].
  fold (reading L T o).
  transitivity (Dayjs.fYYYY L (reading L T o) ++ Dayjs.fMM L (reading L T o)
                ++ Dayjs.fDD L (reading L T o) ++ "_"
                ++ Dayjs.fHH L (reading L T o) ++ Dayjs.fmm L (reading L T o)
                ++ Dayjs.fss L (reading L T o)).
  - rewrite <- (append_nil_r (Dayjs.fss L (reading L T o))). reflexivity.
  - destruct (reading_fields T o) as (-> & -> & -> & -> & -> & ->). reflexivity.
Qed.

Variable P Pd : string -> number.
Variable E : Z -> string.
Hypothesis HL : quarter_host L.

Lemma zoned_reading v t :
  getTime (date v) = Num t -> in_margin t -> reads_tokyo L P Pd E t ->
  zoned L P Pd E v = reading L (tokyo_time t) (Some Dayjs.tokyo).
Proof.
  intros Hv Ht HE. pose proof HL as [HL' _].
  unfold in_margin, msPerDay in Ht.
  assert (Ht' : Z.abs t <= maxTime) by (unfold maxTime in *; lia).
  assert (Hz : Z.abs (t + (Dayjs.tokyo - L) * msPerMinute) <= maxTime)
    by (unfold Dayjs.tokyo, msPerMinute, maxTime in *; lia).
  rewrite (zoned_valid L P Pd E v t HL Hv Ht' HE Hz).
  unfold reading, tokyo_time, UTC. do 3 f_equal. ring.
Qed.

End ZonedFormats.

(** ** The formatters *)

(** X2.  On a host between UTC-12 and UTC+14 at a whole number of quarters
    of an hour, for an instant at least a day inside the range of time
    values at which the engine knows Asia/Tokyo at +09:00 (it prints the
    instant in that zone and reads the string back as the wall clock at
    +09:00), [toDateString], [toDateJpString],
    [toDateStringWithTime], [toDateTimeString] and [toDateName] print the
    wall clock of Asia/Tokyo at that instant, zero-padded, whatever the
    host's zone: the date, the date with 年月日, the date and [HH:mm], the
    date and [HH:mm:ss], and the fields without separators but one [_]. *)
Theorem zoned_formatters_value :
  forall (L : Z) (P Pd : string -> number) (E : Z -> string) (v : DateTime) (t : Z),
    quarter_host L -> getTime (date v) = Num t -> in_margin t ->
    reads_tokyo L P Pd E t ->
    toDateString L P Pd E v = iso_date (tokyo_time t)
    /\ toDateJpString L P Pd E v
       = pad4 (YearFromTime (tokyo_time t)) ++ "年"
         ++ pad2 (MonthFromTime (tokyo_time t) + 1) ++ "月"
         ++ pad2 (DateFromTime (tokyo_time t)) ++ "日"
    /\ toDateStringWithTime L P Pd E v
       = iso_date (tokyo_time t) ++ " " ++ iso_minutes (tokyo_time t)
    /\ toDateTimeString L P Pd E v
       = iso_date (tokyo_time t) ++ " " ++ iso_minutes (tokyo_time t) ++ ":"
         ++ pad2 (SecFromTime (tokyo_time t))
    /\ toDateName L P Pd E v
       = pad4 (YearFromTime (tokyo_time t)) ++ pad2 (MonthFromTime (tokyo_time t) + 1)
         ++ pad2 (DateFromTime (tokyo_time t)) ++ "_"
         ++ pad2 (HourFromTime (tokyo_time t)) ++ pad2 (MinFromTime (tokyo_time t))
         ++ pad2 (SecFromTime (tokyo_time t)).
Proof.
  intros L P Pd E v t HL Hv Ht HE.
  unfold toDateString, toDateJpString, toDateStringWithTime, toDateTimeString,
    toDateName.
  rewrite (zoned_reading L P Pd E HL v t Hv Ht HE).
  rewrite format_reading_date, format_reading_jp, format_reading_minutes,
    format_reading_seconds, format_reading_name.
  repeat split; reflexivity.
Qed.

(** 2024-03-01 00:05:30 UTC, on a host in UTC and on a host at UTC-8. *)
Lemma zoned_formatters_value_witness :
  toDateString 0 (reading_engine 0 [1709251530000]) (reading_engine 0 [1709251530000]) tokyo_string
    (mkDateTime (mkDate (Num 1709251530000))) = "2024-03-01"
  /\ toDateTimeString (-480) (reading_engine (-480) [1709251530000]) (reading_engine (-480) [1709251530000]) tokyo_string
       (mkDateTime (mkDate (Num 1709251530000)))
     = "2024-03-01 09:05:30".
Proof.
  split.
  - rewrite (proj1 (zoned_formatters_value 0 (reading_engine 0 [1709251530000]) (reading_engine 0 [1709251530000]) tokyo_string
                      (mkDateTime (mkDate (Num 1709251530000)))
                      1709251530000 ltac:(split; [lia | reflexivity]) eq_refl
                      ltac:(unfold in_margin, maxTime, msPerDay; lia)
                      ltac:(split; vm_compute; reflexivity))).
    vm_compute. reflexivity.
  - rewrite (proj1 (proj2 (proj2 (proj2
               (zoned_formatters_value (-480) (reading_engine (-480) [1709251530000]) (reading_engine (-480) [1709251530000]) tokyo_string
                      (mkDateTime (mkDate (Num 1709251530000)))
                      1709251530000 ltac:(split; [lia | reflexivity]) eq_refl
                      ltac:(unfold in_margin, maxTime, msPerDay; lia)
                      ltac:(split; vm_compute; reflexivity)))))).
    vm_compute. reflexivity.
Defined.

(** X3.  On an object that holds an invalid date no formatter raises: the
    five dayjs formatters and [afterDay] return "Invalid Date",
    [toJpString] returns "NaN年NaN月NaN日", [toJpStringWithWeek] returns "ー"
    and [toOnlyTime] returns "Date", the second word of "Invalid Date". *)
Theorem formatters_on_invalid :
  forall (L : Z) (P Pd : string -> number) (E : Z -> string) (v : DateTime) (n : Z),
    getTime (date v) = NaN ->
    toDateString L P Pd E v = "Invalid Date"
    /\ toDateJpString L P Pd E v = "Invalid Date"
    /\ toDateStringWithTime L P Pd E v = "Invalid Date"
    /\ toDateTimeString L P Pd E v = "Invalid Date"
    /\ toDateName L P Pd E v = "Invalid Date"
    /\ afterDay L P Pd E v n = "Invalid Date"
    /\ toJpString L v = "NaN年NaN月NaN日"
    /\ toJpStringWithWeek L v = "ー"
    /\ toOnlyTime L v = Ok "Date".
Proof.
  intros L P Pd E v n Hv.
  unfold toDateString, toDateJpString, toDateStringWithTime, toDateTimeString,
    toDateName, afterDay.
  rewrite (zoned_invalid L P Pd E v Hv).
  unfold toJpString, toJpStringWithWeek, toOnlyTime, toLocaleString_ja, getFullYear,
    getMonth, getDate, getDay, getter.
  rewrite Hv. repeat split; reflexivity.
Qed.

Lemma formatters_on_invalid_witness :
  toDateString 540 (fun _ => NaN) (fun _ => NaN) tokyo_string
    (mkDateTime Invalid_Date) = "Invalid Date".
Proof.
  exact (proj1 (formatters_on_invalid 540 (fun _ => NaN) (fun _ => NaN) tokyo_string
                  (mkDateTime Invalid_Date) 0 eq_refl)).
Defined.

(** ** Calendar dates, [afterDay] and [addDate] *)

Lemma tokyo_time_instant day time : tokyo_time (tokyo_instant day time) = MakeDate day time.
Proof. unfold tokyo_time, tokyo_instant. ring. Qed.

Lemma iso_date_of_civil Y m d time :
  1 <= m <= 12 -> 1 <= d <= days_in_month Y m -> 0 <= time < msPerDay ->
  iso_date (MakeDate (days_from_civil Y m d) time) = iso_ymd Y m d.
Proof.
  intros Hm Hd Ht. unfold iso_date, iso_ymd, YearFromTime, MonthFromTime, DateFromTime.
  rewrite Day_MakeDate by exact Ht.
  rewrite civil_from_days_from_civil by assumption. cbn [fst snd].
  replace (m - 1 + 1) with m by ring. reflexivity.
Qed.

Lemma in_margin_day day time :
  -99999800 <= day <= 99999800 -> 0 <= time < msPerDay ->
  in_margin (tokyo_instant day time).
Proof.
  unfold in_margin, tokyo_instant, MakeDate, Dayjs.tokyo, msPerMinute, msPerDay,
    maxTime. lia.
Qed.

Lemma calendar_date_margin Y m d time :
  calendar_date Y m d -> 0 <= time < msPerDay ->
  in_margin (tokyo_instant (days_from_civil Y m d) time).
Proof.
  intros (HY & Hm & Hd) Ht. apply in_margin_day; [|exact Ht].
  pose proof (days_in_month_bound Y m).
  apply days_from_civil_bounds; lia.
Qed.

(** X4.  Round trip: the instant at which the wall clock of Asia/Tokyo shows
    the calendar date [Y]-[m]-[d] at +09:00, at any time of that day, is
    printed by [toDateString] as that date, on any host between UTC-12 and
    UTC+14 at a whole number of quarters of an hour, when the engine knows
    Asia/Tokyo at +09:00 at that instant. *)
Theorem toDateString_of_calendar_date :
  forall (L : Z) (P Pd : string -> number) (E : Z -> string) (v : DateTime)
         (Y m d time : Z),
    quarter_host L -> calendar_date Y m d -> 0 <= time < msPerDay ->
    getTime (date v) = Num (tokyo_instant (days_from_civil Y m d) time) ->
    reads_tokyo L P Pd E (tokyo_instant (days_from_civil Y m d) time) ->
    toDateString L P Pd E v = iso_ymd Y m d.
Proof.
  intros L P Pd E v Y m d time HL Hc Ht Hv HE. unfold toDateString.
  rewrite (zoned_reading L P Pd E HL v _ Hv) by (now apply calendar_date_margin || exact HE).
  rewrite format_reading_date, tokyo_time_instant.
  destruct Hc as (_ & Hm & Hd). now apply iso_date_of_civil.
Qed.

(** Midnight of 2024-03-01 in Asia/Tokyo, on a host in UTC. *)
Lemma toDateString_of_calendar_date_witness :
  toDateString 0 (reading_engine 0 [1709218800000]) (reading_engine 0 [1709218800000]) tokyo_string
    (mkDateTime (mkDate (Num 1709218800000))) = "2024-03-01".
Proof.
  rewrite (toDateString_of_calendar_date 0 (reading_engine 0 [1709218800000]) (reading_engine 0 [1709218800000]) tokyo_string
             (mkDateTime (mkDate (Num 1709218800000)))
             2024 3 1 0 ltac:(split; [lia | reflexivity])
             ltac:(vm_compute; repeat split; discriminate)
             ltac:(unfold msPerDay; lia) eq_refl
             ltac:(split; vm_compute; reflexivity)).
  vm_compute. reflexivity.
Defined.

Section AfterDay.
Variable L : Z.
Variable P Pd : string -> number.
Variable E : Z -> string.
Hypothesis HL : quarter_host L.

Lemma add_d_reading T o n :
  Z.abs (UTC L T + n * msPerDay) <= maxTime ->
  Dayjs.add_d L n (reading L T o) = reading L (T + n * msPerDay) o.
Proof.
  intros H. unfold reading. rewrite add_d_valid, TimeClip_in by exact H.
  do 3 f_equal. unfold UTC. ring.
Qed.

Lemma afterDay_reading v t n :
  getTime (date v) = Num t -> in_margin t -> in_margin (t + n * msPerDay) ->
  reads_tokyo L P Pd E t ->
  afterDay L P Pd E v n = iso_date (tokyo_time t + n * msPerDay).
Proof.
  intros Hv Ht Hn HE. pose proof HL as [HL' _]. unfold afterDay.
  rewrite (zoned_reading L P Pd E HL v t Hv Ht HE).
  rewrite add_d_reading.
  - apply format_reading_date.
  - unfold in_margin, tokyo_time, UTC, Dayjs.tokyo, msPerMinute, msPerDay, maxTime in *.
    lia.
Qed.

End AfterDay.

(** X5.  Away from the ends of the range of time values, and where the
    engine knows Asia/Tokyo at +09:00 at the object's instant and [n] days
    later, [afterDay n] is [toDateString] of [addDate n], and [afterDay 0]
    is [toDateString]; on an invalid object both sides are
    "Invalid Date". *)
Theorem afterDay_addDate :
  forall (L : Z) (P Pd : string -> number) (E : Z -> string) (v : DateTime) (n : Z),
    quarter_host L ->
    (forall t, getTime (date v) = Num t ->
       in_margin t /\ in_margin (t + n * msPerDay)
       /\ reads_tokyo L P Pd E t /\ reads_tokyo L P Pd E (t + n * msPerDay)) ->
    afterDay L P Pd E v n = toDateString L P Pd E (addDate L P Pd E v n)
    /\ afterDay L P Pd E v 0 = toDateString L P Pd E v.
Proof.
  intros L P Pd E v n HL Hr. destruct (getTime (date v)) as [|t] eqn:Hv.
  - unfold afterDay, toDateString. rewrite (addDate_invalid L P Pd E v n Hv).
    rewrite (zoned_invalid L P Pd E v Hv),
      (zoned_invalid L P Pd E (mkDateTime (mkDate NaN)) eq_refl).
    split; reflexivity.
  - destruct (Hr t eq_refl) as (Ht & Hn & Et & En). split.
    + rewrite (afterDay_reading L P Pd E HL v t n Hv Ht Hn Et).
      rewrite (addDate_valid L P Pd E v t n HL Hv Et Ht Hn). unfold toDateString.
      rewrite (zoned_reading L P Pd E HL (mkDateTime (mkDate (Num (t + n * msPerDay))))
                 (t + n * msPerDay) eq_refl Hn En).
      rewrite format_reading_date. f_equal. unfold tokyo_time. ring.
    + rewrite (afterDay_reading L P Pd E HL v t 0 Hv Ht)
        by (exact Et || now replace (t + 0 * msPerDay) with t by ring).
      unfold toDateString. rewrite (zoned_reading L P Pd E HL v t Hv Ht Et).
      rewrite format_reading_date. f_equal. ring.
Qed.

(** 2024-03-01 10:15 in Asia/Tokyo and 30 days later. *)
Lemma afterDay_addDate_witness :
  afterDay 540 (reading_engine 540 [1709255700000; 1711847700000]) (reading_engine 540 [1709255700000; 1711847700000]) tokyo_string
    (mkDateTime (mkDate (Num 1709255700000))) 30
  = toDateString 540 (reading_engine 540 [1709255700000; 1711847700000]) (reading_engine 540 [1709255700000; 1711847700000]) tokyo_string
      (addDate 540 (reading_engine 540 [1709255700000; 1711847700000]) (reading_engine 540 [1709255700000; 1711847700000]) tokyo_string
         (mkDateTime (mkDate (Num 1709255700000))) 30).
Proof.
  refine (proj1 (afterDay_addDate 540 (reading_engine 540 [1709255700000; 1711847700000]) (reading_engine 540 [1709255700000; 1711847700000]) tokyo_string
                   (mkDateTime (mkDate (Num 1709255700000))) 30 _ _)).
  - split; [lia | reflexivity].
  - intros t H. injection H as <-.
    split; [unfold in_margin, maxTime, msPerDay; lia|].
    split; [unfold in_margin, maxTime, msPerDay; lia|].
    split; split; vm_compute; reflexivity.
Defined.


(** ** Moving along the calendar *)

Lemma days_from_civil_day Y m d k :
  days_from_civil Y m d + k = days_from_civil Y m (d + k).
Proof. unfold days_from_civil, doe_of. lia. Qed.

(** The day after the last day of a month is the first of the next. *)
Lemma days_from_civil_next_month Y m :
  1 <= m <= 12 ->
  days_from_civil Y m (days_in_month Y m) + 1
  = days_from_civil (fst (next_month Y m)) (snd (next_month Y m)) 1.
Proof.
  intros Hm.
  assert (Hc : m = 1 \/ m = 2 \/ m = 3 \/ m = 4 \/ m = 5 \/ m = 6 \/ m = 7
               \/ m = 8 \/ m = 9 \/ m = 10 \/ m = 11 \/ m = 12) by lia.
  unfold days_in_month, next_month.
  repeat (destruct Hc as [-> | Hc]); try subst m; cbn [Z.eqb Pos.eqb orb fst snd].
  all: try (destruct (is_leap Y) eqn:El;
            [apply is_leap_spec in El
            |assert (Hn : ~ (Y mod 4 = 0 /\ (Y mod 100 <> 0 \/ Y mod 400 = 0)))
               by (rewrite <- is_leap_spec, El; discriminate)]).
  all: unfold days_from_civil, doe_of, daysPerEra, epochShift.
  all: cbn [Z.leb Z.compare Pos.compare Pos.compare_cont Z.add Pos.add Pos.succ].
  all: cbv iota.
  all: div_lia.
Qed.

Lemma calendar_date_next Y m :
  -271820 <= Y <= 275758 -> 1 <= m <= 12 ->
  calendar_date (fst (next_month Y m)) (snd (next_month Y m)) 1.
Proof.
  intros HY Hm. unfold next_month, calendar_date.
  destruct (Z.eqb_spec m 12); cbn [fst snd].
  - pose proof (days_in_month_bound (Y + 1) 1). lia.
  - pose proof (days_in_month_bound Y (m + 1)). lia.
Qed.

(** X6.  Where the engine knows Asia/Tokyo at +09:00 at the object's
    instant, [afterDay] moves along the calendar of Asia/Tokyo: from the
    date [Y]-[m]-[d], a shift that stays inside the month gives
    [Y]-[m]-[d + n], and one day after the last day of a month gives the
    first day of the next month, of the next year after December. *)
Theorem afterDay_calendar :
  forall (L : Z) (P Pd : string -> number) (E : Z -> string) (v : DateTime)
         (Y m d time n : Z),
    quarter_host L -> calendar_date Y m d -> 0 <= time < msPerDay ->
    getTime (date v) = Num (tokyo_instant (days_from_civil Y m d) time) ->
    reads_tokyo L P Pd E (tokyo_instant (days_from_civil Y m d) time) ->
    (1 <= d + n <= days_in_month Y m ->
     afterDay L P Pd E v n = iso_ymd Y m (d + n))
    /\ (d = days_in_month Y m -> Y <= 275758 ->
        afterDay L P Pd E v 1
        = iso_ymd (fst (next_month Y m)) (snd (next_month Y m)) 1).
Proof.
  intros L P Pd E v Y m d time n HL Hc Ht Hv HE.
  pose proof (calendar_date_margin Y m d time Hc Ht) as Hmar.
  destruct Hc as (HY & Hm & Hd).
  assert (shift : forall k, MakeDate (days_from_civil Y m d) time + k * msPerDay
                            = MakeDate (days_from_civil Y m d + k) time)
    by (intros k; unfold MakeDate; ring).
  split.
  - intros Hn.
    assert (Hc' : calendar_date Y m (d + n)) by (unfold calendar_date; auto).
    rewrite (afterDay_reading L P Pd E HL v _ n Hv Hmar); [| |exact HE].
    + rewrite tokyo_time_instant, shift, days_from_civil_day.
      now apply iso_date_of_civil.
    + replace (tokyo_instant (days_from_civil Y m d) time + n * msPerDay)
        with (tokyo_instant (days_from_civil Y m (d + n)) time)
        by (rewrite <- days_from_civil_day; unfold tokyo_instant, MakeDate; ring).
      now apply calendar_date_margin.
  - intros Hlast HY'. subst d.
    pose proof (calendar_date_next Y m ltac:(lia) Hm) as Hc'.
    rewrite (afterDay_reading L P Pd E HL v _ 1 Hv Hmar); [| |exact HE].
    + rewrite tokyo_time_instant, shift, days_from_civil_next_month by exact Hm.
      destruct Hc' as (_ & Hm' & Hd'). now apply iso_date_of_civil.
    + replace (tokyo_instant (days_from_civil Y m (days_in_month Y m)) time
               + 1 * msPerDay)
        with (tokyo_instant
                (days_from_civil (fst (next_month Y m)) (snd (next_month Y m)) 1) time)
        by (rewrite <- days_from_civil_next_month by exact Hm;
            unfold tokyo_instant, MakeDate; ring).
      now apply calendar_date_margin.
Qed.

(** 2024-02-29 23:59:59 in Asia/Tokyo, on a host in UTC: the next day is
    March 1st, 28 days earlier is February 1st. *)
Lemma afterDay_calendar_witness :
  afterDay 0 (reading_engine 0 [1709218799000]) (reading_engine 0 [1709218799000]) tokyo_string
    (mkDateTime (mkDate (Num 1709218799000))) 1 = "2024-03-01"
  /\ afterDay 0 (reading_engine 0 [1709218799000]) (reading_engine 0 [1709218799000]) tokyo_string
       (mkDateTime (mkDate (Num 1709218799000))) (-28) = "2024-02-01".
Proof.
  assert (Hc : calendar_date 2024 2 29) by (vm_compute; repeat split; discriminate).
  assert (Ht : 0 <= 86399000 < msPerDay) by (unfold msPerDay; lia).
  destruct (afterDay_calendar 0 (reading_engine 0 [1709218799000]) (reading_engine 0 [1709218799000]) tokyo_string
              (mkDateTime (mkDate (Num 1709218799000)))
              2024 2 29 86399000 (-28) ltac:(split; [lia | reflexivity]) Hc Ht eq_refl
              ltac:(split; vm_compute; reflexivity)) as [H1 H2].
  split.
  - rewrite H2; [vm_compute; reflexivity | reflexivity | lia].
  - rewrite H1; [vm_compute; reflexivity | vm_compute; split; discriminate].
Defined.

(** X7.  Away from the ends of the range of time values, and where the
    engine knows Asia/Tokyo at +09:00 at the object's instant and [a] days
    later, shifts by whole
    days compose: [addDate a] then [addDate b] is [addDate (a + b)],
    [addDate 0] gives an object that holds the same instant, and
    [subtractDate a] is [addDate (- a)]. *)
Theorem addDate_compose :
  forall (L : Z) (P Pd : string -> number) (E : Z -> string) (v : DateTime) (a b : Z),
    quarter_host L ->
    (forall t, getTime (date v) = Num t ->
       in_margin t /\ in_margin (t + a * msPerDay)
       /\ in_margin (t + (a + b) * msPerDay)
       /\ reads_tokyo L P Pd E t /\ reads_tokyo L P Pd E (t + a * msPerDay)) ->
    addDate L P Pd E (addDate L P Pd E v a) b = addDate L P Pd E v (a + b)
    /\ addDate L P Pd E v 0 = v
    /\ subtractDate L P Pd E v a = addDate L P Pd E v (- a).
Proof.
  intros L P Pd E v a b HL Hr. split; [|split].
  - destruct (getTime (date v)) as [|t] eqn:Hv.
    + rewrite (addDate_invalid L P Pd E v a Hv), (addDate_invalid L P Pd E v (a + b) Hv).
      now apply addDate_invalid.
    + destruct (Hr t eq_refl) as (Ht & Ha & Hab & Et & Ea).
      rewrite (addDate_valid L P Pd E v t a HL Hv Et Ht Ha).
      rewrite (addDate_valid L P Pd E v t (a + b) HL Hv Et Ht Hab).
      rewrite (addDate_valid L P Pd E (mkDateTime (mkDate (Num (t + a * msPerDay))))
                 (t + a * msPerDay) b HL eq_refl Ea Ha)
        by (now replace (t + a * msPerDay + b * msPerDay)
              with (t + (a + b) * msPerDay) by ring).
      do 3 f_equal. ring.
  - destruct (getTime (date v)) as [|t] eqn:Hv.
    + rewrite (addDate_invalid L P Pd E v 0 Hv), <- (DateTime_eta v), Hv. reflexivity.
    + destruct (Hr t eq_refl) as (Ht & _ & _ & Et & _).
      rewrite (addDate_valid L P Pd E v t 0 HL Hv Et Ht)
        by (now replace (t + 0 * msPerDay) with t by ring).
      rewrite <- (DateTime_eta v), Hv. do 3 f_equal. ring.
  - rewrite subtractDate_addDate. f_equal. ring.
Qed.

(** 2024-03-01 10:15 in Asia/Tokyo, 30 days later, then 45 days earlier. *)
Lemma addDate_compose_witness :
  addDate 540 (reading_engine 540 [1709255700000; 1711847700000]) (reading_engine 540 [1709255700000; 1711847700000]) tokyo_string
    (addDate 540 (reading_engine 540 [1709255700000; 1711847700000]) (reading_engine 540 [1709255700000; 1711847700000]) tokyo_string
       (mkDateTime (mkDate (Num 1709255700000))) 30) (-45)
  = addDate 540 (reading_engine 540 [1709255700000; 1711847700000]) (reading_engine 540 [1709255700000; 1711847700000]) tokyo_string
      (mkDateTime (mkDate (Num 1709255700000))) (30 + -45).
Proof.
  refine (proj1 (addDate_compose 540 (reading_engine 540 [1709255700000; 1711847700000]) (reading_engine 540 [1709255700000; 1711847700000]) tokyo_string
                   (mkDateTime (mkDate (Num 1709255700000))) 30 (-45) _ _)).
  - split; [lia | reflexivity].
  - intros t H. injection H as <-.
    split; [unfold in_margin, maxTime, msPerDay; lia|].
    split; [unfold in_margin, maxTime, msPerDay; lia|].
    split; [unfold in_margin, maxTime, msPerDay; lia|].
    split; split; vm_compute; reflexivity.
Defined.


(** ** The normaliser and the comparisons *)

(** X8.  [formatSafariSupport] rewrites its argument character by character:
    a [-] becomes a [/] and every other character stays where it is.  So
    the result holds no [-], has the length of the argument, is left as it
    is by a second pass, and a string without [-] is returned unchanged. *)
Theorem formatSafariSupport_chars :
  forall (v : string),
    (forall n, get n (formatSafariSupport v)
               = option_map (fun c => if Ascii.eqb c "-" then "/"%char else c)
                   (get n v))
    /\ (forall n, get n (formatSafariSupport v) <> Some "-"%char)
    /\ String.length (formatSafariSupport v) = String.length v
    /\ formatSafariSupport (formatSafariSupport v) = formatSafariSupport v
    /\ ((forall n, get n v <> Some "-"%char) -> formatSafariSupport v = v).
Proof.
  intros v. unfold formatSafariSupport.
  assert (G : forall n, get n (replace_dash v)
                        = option_map (fun c => if Ascii.eqb c "-" then "/"%char else c)
                            (get n v)).
  { induction v as [|c r IH]; intros n; [reflexivity|].
    destruct n as [|n]; cbn; [reflexivity | apply IH]. }
  split; [exact G|]. split; [|split; [|split]].
  - intros n. rewrite G. destruct (get n v) as [c|]; [|discriminate].
    cbn [option_map]. destruct (Ascii.eqb_spec c "-") as [->|Hc].
    + discriminate.
    + intros E. apply Hc. now injection E.
  - clear G. induction v as [|c r IH]; cbn; [reflexivity | now rewrite IH].
  - apply replace_dash_idem.
  - clear G. induction v as [|c r IH]; intros H; cbn; [reflexivity|].
    rewrite IH by (intros n; apply (H (S n))).
    destruct (Ascii.eqb_spec c "-") as [->|]; [|reflexivity].
    now destruct (H O).
Qed.

Lemma formatSafariSupport_chars_witness :
  formatSafariSupport "20240301" = "20240301".
Proof.
  apply (proj2 (proj2 (proj2 (proj2 (formatSafariSupport_chars "20240301"))))).
  intros n. do 9 (destruct n as [|n]; [discriminate|]). destruct n; discriminate.
Defined.

(** X9.  [DaysDiff] at the edges, on a host that keeps one offset: it is
    [NaN] as soon as the object is invalid or the string is not read; it is
    0 when the two instants are less than a day apart, in either order; and
    swapping the two instants negates the result. *)
Theorem DaysDiff_edges :
  forall (L : Z) (P : string -> number) (v w : DateTime) (s r : string),
    (getTime (date v) = NaN \/ P s = NaN -> DaysDiff L P v s = NaN)
    /\ (forall tv ts,
          getTime (date v) = Num tv -> P s = Num ts ->
          Z.abs (tv - ts) < msPerDay -> DaysDiff L P v s = Num 0)
    /\ (forall tv ts k,
          getTime (date v) = Num tv -> P s = Num ts ->
          getTime (date w) = Num ts -> P r = Num tv ->
          DaysDiff L P v s = Num k -> DaysDiff L P w r = Num (- k)).
Proof.
  intros L P v w s r. split; [|split].
  - unfold DaysDiff, Dayjs.diff_day, Dayjs.of_Date, Dayjs.of_string, Dayjs.valueOf.
    cbn [Dayjs.offset_ Dayjs.d_ getTime].
    intros [H|H]; rewrite H; [reflexivity|].
    now destruct (getTime (date v)).
  - intros tv ts Hv Hs Hd. rewrite (DaysDiff_quot L P v s tv ts Hv Hs).
    rewrite round53_small by (unfold two53, msPerDay in *; lia). f_equal.
    unfold msPerDay in *. Z.to_euclidean_division_equations. lia.
  - intros tv ts k Hv Hs Hw Hr.
    rewrite (DaysDiff_quot L P v s tv ts Hv Hs), (DaysDiff_quot L P w r ts tv Hw Hr).
    intros Hk. injection Hk as <-. f_equal.
    replace (ts - tv) with (- (tv - ts)) by ring.
    rewrite round53_opp. now rewrite Z.quot_opp_l by discriminate.
Qed.

Lemma DaysDiff_edges_witness :
  DaysDiff 540 (fun _ => NaN) (mkDateTime (mkDate (Num 1709218800000))) "not a date"
  = NaN.
Proof.
  exact (proj1 (DaysDiff_edges 540 (fun _ => NaN)
                  (mkDateTime (mkDate (Num 1709218800000)))
                  (mkDateTime (mkDate (Num 1709218800000))) "not a date" "")
           (or_intror eq_refl)).
Defined.

(** X10.  [isBefore] at the edges: it is false as soon as the object is
    invalid or the string is not read, false against its own instant, and
    it never holds in both directions. *)
Theorem isBefore_edges :
  forall (L : Z) (P : string -> number) (v w : DateTime) (s r : string),
    (getTime (date v) = NaN \/ P s = NaN -> isBefore L P v s = false)
    /\ (P s = getTime (date v) -> isBefore L P v s = false)
    /\ (P s = getTime (date w) -> P r = getTime (date v) ->
        isBefore L P v s = true -> isBefore L P w r = false).
Proof.
  intros L P v w s r.
  unfold isBefore, Dayjs.isBefore, Dayjs.of_Date, Dayjs.of_string, Dayjs.valueOf.
  cbn [Dayjs.offset_ Dayjs.d_ getTime]. split; [|split].
  - intros [H|H]; rewrite H; [reflexivity|]. now destruct (getTime (date v)).
  - intros ->. destruct (getTime (date v)); [reflexivity|]. apply Z.ltb_irrefl.
  - intros -> ->. destruct (getTime (date v)), (getTime (date w)); cbn; try discriminate.
    rewrite Z.ltb_lt, Z.ltb_ge. lia.
Qed.

Lemma isBefore_edges_witness :
  isBefore 540 (fun _ => NaN) (mkDateTime (mkDate (Num 1709218800000))) "not a date"
  = false.
Proof.
  exact (proj1 (isBefore_edges 540 (fun _ => NaN)
                  (mkDateTime (mkDate (Num 1709218800000)))
                  (mkDateTime (mkDate (Num 1709218800000))) "not a date" "")
           (or_intror eq_refl)).
Defined.

Lemma isSameDate_iff L P now v a :
  isSameDate L P now v a = true
  <-> exists t, getTime (date v) = Num t
                /\ getTime (date (new_DateTime P now a)) = Num t.
Proof.
  unfold isSameDate, Dayjs.isSame, Dayjs.of_Date, Dayjs.valueOf.
  cbn [Dayjs.offset_ Dayjs.d_ getTime].
  destruct (getTime (date v)) as [|t1];
    destruct (getTime (date (new_DateTime P now a))) as [|t2]; cbn.
  1-3: split; [discriminate | intros (t & H1 & H2); discriminate].
  rewrite andb_true_iff, !Z.leb_le. split.
  - intros [H1 H2]. exists t1. split; [reflexivity | f_equal; lia].
  - intros (t & H1 & H2). injection H1 as ->. injection H2 as ->. lia.
Qed.

(** X11.  [isSameDate] at the edges: an object is the same as its own date
    exactly when it is valid; the comparison of two objects' dates is
    symmetric; and against a string that the engine does not read, [null]
    or [undefined], the object is compared with the reading of the clock. *)
Theorem isSameDate_edges :
  forall (L : Z) (P : string -> number) (now : Z) (v w : DateTime) (s : string),
    (isSameDate L P now v (ADate (date v)) = true <-> valid_instant v)
    /\ isSameDate L P now v (ADate (date w)) = isSameDate L P now w (ADate (date v))
    /\ (isDate P (formatSafariSupport s) = false ->
        (isSameDate L P now v (AString s) = true <-> getTime (date v) = Num now))
    /\ (isSameDate L P now v ANull = true <-> getTime (date v) = Num now)
    /\ (isSameDate L P now v AUndefined = true <-> getTime (date v) = Num now).
Proof.
  intros L P now v w s.
  assert (N : forall a, getTime (date (new_DateTime P now a)) = Num now ->
              (isSameDate L P now v a = true <-> getTime (date v) = Num now)).
  { intros a E. rewrite isSameDate_iff, E. split.
    - intros (t & H1 & H2). congruence.
    - intros H. now exists now. }
  split; [|split; [|split; [|split]]].
  - rewrite isSameDate_iff. cbn. unfold valid_instant. split.
    + intros (t & H & _). now exists t.
    + intros (t & H). now exists t.
  - unfold isSameDate, Dayjs.isSame. cbn [new_DateTime date]. apply andb_comm.
  - intros H. apply N. unfold new_DateTime. now rewrite H.
  - now apply N.
  - now apply N.
Qed.

Lemma isSameDate_edges_witness :
  isSameDate 540 (fun _ => NaN) 1700000000000
    (mkDateTime (mkDate (Num 1700000000000))) (AString "not a date") = true
  <-> Num 1700000000000 = Num 1700000000000.
Proof.
  exact (proj1 (proj2 (proj2 (isSameDate_edges 540 (fun _ => NaN) 1700000000000
                                (mkDateTime (mkDate (Num 1700000000000)))
                                (mkDateTime (mkDate (Num 1700000000000)))
                                "not a date"))) eq_refl).
Defined.

(** ** Weekdays and the slots under the clock *)

Lemma week_at_name k : 0 <= k < 7 -> week_at (Num k) = Some (weekday_name k).
Proof.
  intros Hk. unfold week_at, weekday_name.
  destruct (Z.ltb_spec k 0); [lia|].
  assert (Hc : k = 0 \/ k = 1 \/ k = 2 \/ k = 3 \/ k = 4 \/ k = 5 \/ k = 6) by lia.
  repeat (destruct Hc as [-> | Hc]); try subst k; reflexivity.
Qed.

Lemma toJpStringWithWeek_valid L v t :
  getTime (date v) = Num t ->
  toJpStringWithWeek L v
  = toJpString L v ++ "（" ++ weekday_name (WeekDay (LocalTime L t)) ++ "）".
Proof.
  intros Hv. unfold toJpStringWithWeek, getDay, getter. rewrite Hv.
  now rewrite (week_at_name _ (WeekDay_bound _)).
Qed.

(** X12.  [toJpString] prints the host's calendar without padding: at the
    instant at which the host's wall clock shows the date [Y]-[m]-[d], it
    returns [Y]年[m]月[d]日, and [toJpStringWithWeek] appends the weekday of
    that day, Sunday first, between full-width parentheses. *)
Theorem toJpString_of_calendar_date :
  forall (L : Z) (v : DateTime) (Y m d time : Z),
    1 <= m <= 12 -> 1 <= d <= days_in_month Y m -> 0 <= time < msPerDay ->
    getTime (date v) = Num (host_instant L (days_from_civil Y m d) time) ->
    toJpString L v
    = ToString (Num Y) ++ "年" ++ ToString (Num m) ++ "月" ++ ToString (Num d) ++ "日"
    /\ toJpStringWithWeek L v
       = toJpString L v ++ "（"
         ++ weekday_name ((days_from_civil Y m d + 4) mod 7) ++ "）".
Proof.
  intros L v Y m d time Hm Hd Ht Hv. split.
  - unfold toJpString, getFullYear, getMonth, getDate, getter. rewrite Hv.
    unfold host_instant. rewrite LocalTime_UTC. cbn [num_add].
    unfold YearFromTime, MonthFromTime, DateFromTime.
    rewrite (Day_MakeDate _ _ Ht), (civil_from_days_from_civil Y m d Hm Hd).
    cbn [fst snd]. replace (m - 1 + 1) with m by ring. reflexivity.
  - rewrite (toJpStringWithWeek_valid L v _ Hv).
    unfold host_instant. rewrite LocalTime_UTC. unfold WeekDay.
    now rewrite (Day_MakeDate _ _ Ht).
Qed.

Lemma toJpString_of_calendar_date_witness :
  toJpStringWithWeek 540 (mkDateTime (mkDate (Num 1709218800000)))
  = "2024年3月1日（金）".
Proof.
  destruct (toJpString_of_calendar_date 540 (mkDateTime (mkDate (Num 1709218800000)))
              2024 3 1 0 ltac:(lia) ltac:(vm_compute; split; discriminate)
              ltac:(unfold msPerDay; lia) eq_refl) as [E1 E2].
  rewrite E2, E1. vm_compute. reflexivity.
Defined.

(** X13.  Away from the ends of the range of time values, and where the
    engine knows Asia/Tokyo at +09:00 at the object's instant, [addDate n]
    moves the weekday printed by [toJpStringWithWeek] [n] places round the
    week. *)
Theorem toJpStringWithWeek_addDate :
  forall (L : Z) (P Pd : string -> number) (E : Z -> string) (v : DateTime) (t n : Z),
    quarter_host L -> getTime (date v) = Num t ->
    in_margin t -> in_margin (t + n * msPerDay) -> reads_tokyo L P Pd E t ->
    toJpStringWithWeek L v
    = toJpString L v ++ "（" ++ weekday_name (WeekDay (LocalTime L t)) ++ "）"
    /\ toJpStringWithWeek L (addDate L P Pd E v n)
       = toJpString L (addDate L P Pd E v n) ++ "（"
         ++ weekday_name ((WeekDay (LocalTime L t) + n) mod 7) ++ "）".
Proof.
  intros L P Pd E v t n HL Hv Ht Hn HE. split; [now apply toJpStringWithWeek_valid|].
  rewrite (addDate_valid L P Pd E v t n HL Hv HE Ht Hn).
  rewrite (toJpStringWithWeek_valid L (mkDateTime (mkDate (Num (t + n * msPerDay)))) _ eq_refl).
  assert (Ew : WeekDay (LocalTime L (t + n * msPerDay))
              = (WeekDay (LocalTime L t) + n) mod 7).
  { unfold WeekDay.
    replace (Day (LocalTime L (t + n * msPerDay))) with (Day (LocalTime L t) + n)
      by (unfold Day, LocalTime, msPerDay; div_lia).
    rewrite Zplus_mod_idemp_l. f_equal. ring. }
  now rewrite Ew.
Qed.

(** Friday 2024-03-01 in Asia/Tokyo, three days later. *)
Lemma toJpStringWithWeek_addDate_witness :
  toJpStringWithWeek 540
    (addDate 540 (reading_engine 540 [1709218800000]) (reading_engine 540 [1709218800000]) tokyo_string
       (mkDateTime (mkDate (Num 1709218800000))) 3)
  = "2024年3月4日（月）".
Proof.
  rewrite (proj2 (toJpStringWithWeek_addDate 540 (reading_engine 540 [1709218800000]) (reading_engine 540 [1709218800000]) tokyo_string
                    (mkDateTime (mkDate (Num 1709218800000))) 1709218800000 3
                    ltac:(split; [lia | reflexivity]) eq_refl
                    ltac:(unfold in_margin, maxTime, msPerDay; lia)
                    ltac:(unfold in_margin, maxTime, msPerDay; lia)
                    ltac:(split; vm_compute; reflexivity))).
  vm_compute. reflexivity.
Defined.

Section SlotClock.
Variable L : Z.
Variable P : string -> number.

Lemma slot_hour_at now s t i :
  date (new_DateTime P now (AString s)) = mkDate (Num t) ->
  day_in_range L t -> 0 <= i < 24 ->
  slot_hour L P now s i
  = Dayjs.mk (at_ L (Day (LocalTime L t)) i 0 0 (msFromTime (LocalTime L t))) None false.
Proof.
  intros E Hr Hi.
  unfold slot_hour. rewrite E. unfold Dayjs.of_Date. cbn [getTime].
  rewrite (at_fields L t).
  destruct (field_bounds (LocalTime L t)) as (Hh & Hm & Hs & Hms).
  unfold Dayjs.second, Dayjs.minute, Dayjs.hour, Dayjs.wrap.
  cbn [Dayjs.d_ Dayjs.offset_].
  rewrite setHours_at, setMinutes_at, setSeconds_at by (assumption || lia).
  reflexivity.
Qed.

Lemma pushed_at clock s i :
  date (new_DateTime P (clock i) (AString s)) = mkDate (Num (clock i)) ->
  day_in_range L (clock i) -> 0 <= i < 24 ->
  pushed L P clock s i = clock_slots L clock i.
Proof.
  intros E Hr Hi. unfold pushed, clock_slots.
  destruct (field_bounds (LocalTime L (clock i))) as (_ & _ & _ & Hms).
  rewrite (slot_hour_at _ s _ i E Hr Hi).
  rewrite (add_m_30_value L (clock i) i _ Hr Hi Hms).
  rewrite !stamp_at by lia. reflexivity.
Qed.

Lemma flat_map_business {A : Type} (f g : Z -> list A) :
  (forall i, 8 <= i < 20 -> f i = g i) -> flat_map f hours = flat_map g hours.
Proof.
  intros H. unfold hours. cbn [flat_map]. rewrite !H by lia. reflexivity.
Qed.

End SlotClock.

(** X14.  On a string that the engine does not read, the slot generator
    follows the clock: the two stamps of each hour carry the date the
    host's clock shows when the loop reaches that hour.  When the clock
    stays within one day of the host during the loop, the result is the 24
    slots of that day. *)
Theorem slots_of_unreadable :
  forall (L : Z) (P : string -> number) (clock : Z -> Z) (s : string),
    isDate P (formatSafariSupport s) = false ->
    (forall i, 8 <= i < 20 -> day_in_range L (clock i)) ->
    美容室入場時間 L P clock s = flat_map (clock_slots L clock) hours
    /\ ((forall i, 8 <= i < 20 ->
           Day (LocalTime L (clock i)) = Day (LocalTime L (clock 8))) ->
        美容室入場時間 L P clock s = expected_slots (local_date L (clock 8))).
Proof.
  intros L P clock s Hs Hr.
  assert (E : 美容室入場時間 L P clock s = flat_map (clock_slots L clock) hours).
  { rewrite slots_flat_map. apply flat_map_business. intros i Hi.
    apply pushed_at; [|now apply Hr|lia].
    unfold new_DateTime. now rewrite Hs. }
  split; [exact E|].
  intros Hd. rewrite E. unfold expected_slots. apply flat_map_business.
  intros i Hi. unfold clock_slots.
  now rewrite (local_date_of_day L (clock i)), (Hd i Hi), <- local_date_of_day.
Qed.

Lemma slots_of_unreadable_witness :
  美容室入場時間 540 (fun _ => NaN) (fun i => 1709251530000 + i) "soon"
  = expected_slots "2024-03-01".
Proof.
  rewrite (proj2 (slots_of_unreadable 540 (fun _ => NaN)
                    (fun i => 1709251530000 + i) "soon" eq_refl
                    ltac:(intros i Hi; unfold day_in_range, UTC, MakeDate, Day,
                            LocalTime, maxTime, msPerDay, msPerMinute; div_lia))
            ltac:(intros i Hi; unfold Day, LocalTime, msPerDay, msPerMinute;
                    div_lia)).
  vm_compute. reflexivity.
Defined.

(** X15.  The slots depend on the host's calendar day only: two strings
    read as instants of the same day of the host give the same slots,
    whatever the time of day they name and whatever the clock shows. *)
Theorem slots_same_day :
  forall (L : Z) (P : string -> number) (clock clock' : Z -> Z) (s s' : string)
         (t t' : Z),
    P (formatSafariSupport s) = Num t -> P (formatSafariSupport s') = Num t' ->
    day_in_range L t ->
    Day (LocalTime L t) = Day (LocalTime L t') ->
    美容室入場時間 L P clock s = 美容室入場時間 L P clock' s'.
Proof.
  intros L P clock clock' s s' t t' Hs Hs' Hr Hd.
  assert (Hr' : day_in_range L t') by (unfold day_in_range in *; now rewrite <- Hd).
  rewrite (proj1 (slots_general L P clock s t Hs Hr)).
  rewrite (proj1 (slots_general L P clock' s' t' Hs' Hr')).
  now rewrite !local_date_of_day, Hd.
Qed.

Lemma slots_same_day_witness :
  美容室入場時間 540 day_parse (fun _ => 0) "2024-03-01 07:00"
  = 美容室入場時間 540 day_parse (fun _ => 1) "2024-03-01 21:30".
Proof.
  apply (slots_same_day 540 day_parse (fun _ => 0) (fun _ => 1)
           "2024-03-01 07:00" "2024-03-01 21:30" 1709244000000 1709296200000).
  - vm_compute. reflexivity.
  - vm_compute. reflexivity.
  - split; apply Z.leb_le; vm_compute; reflexivity.
  - vm_compute. reflexivity.
Defined.

(** X16.  On a host at +09:00 whose engine knows Asia/Tokyo at +09:00 at
    the object's instant, the two clocks agree: [toDateStringWithTime] is
    [toDateString], a blank and the result of [toOnlyTime]. *)
Theorem toOnlyTime_on_tokyo_host :
  forall (P Pd : string -> number) (E : Z -> string) (v : DateTime) (t : Z),
    getTime (date v) = Num t -> in_margin t -> reads_tokyo Dayjs.tokyo P Pd E t ->
    exists r, toOnlyTime Dayjs.tokyo v = Ok r
              /\ toDateStringWithTime Dayjs.tokyo P Pd E v
                 = toDateString Dayjs.tokyo P Pd E v ++ " " ++ r.
Proof.
  intros P Pd E v t Hv Ht HE. exists (iso_minutes (tokyo_time t)). split.
  - rewrite (toOnlyTime_valid _ v t Hv). reflexivity.
  - unfold toDateStringWithTime, toDateString.
    rewrite (zoned_reading Dayjs.tokyo P Pd E
               ltac:(split; [unfold Dayjs.tokyo; lia | reflexivity]) v t Hv Ht HE).
    now rewrite format_reading_minutes, format_reading_date.
Qed.

Lemma toOnlyTime_on_tokyo_host_witness :
  exists r,
    toOnlyTime Dayjs.tokyo (mkDateTime (mkDate (Num 1709251530000))) = Ok r
    /\ toDateStringWithTime Dayjs.tokyo (reading_engine 540 [1709251530000]) (reading_engine 540 [1709251530000]) tokyo_string
         (mkDateTime (mkDate (Num 1709251530000)))
       = toDateString Dayjs.tokyo (reading_engine 540 [1709251530000]) (reading_engine 540 [1709251530000]) tokyo_string
           (mkDateTime (mkDate (Num 1709251530000))) ++ " " ++ r.
Proof.
  exact (toOnlyTime_on_tokyo_host (reading_engine 540 [1709251530000]) (reading_engine 540 [1709251530000]) tokyo_string
           (mkDateTime (mkDate (Num 1709251530000)))
           1709251530000 eq_refl ltac:(unfold in_margin, maxTime, msPerDay; lia)
           ltac:(split; vm_compute; reflexivity)).
Defined.


(** ** The comparisons together, and the ends of the range *)

Lemma TimeClip_out t : maxTime < Z.abs t -> TimeClip t = NaN.
Proof.
  intros H. unfold TimeClip. destruct (Z.leb_spec (Z.abs t) maxTime); [lia | reflexivity].
Qed.

Lemma isBefore_lt L P v s :
  isBefore L P v s = true
  <-> exists tv ts, getTime (date v) = Num tv /\ P s = Num ts /\ tv < ts.
Proof.
  unfold isBefore, Dayjs.isBefore, Dayjs.of_Date, Dayjs.of_string, Dayjs.valueOf.
  cbn [Dayjs.offset_ Dayjs.d_ getTime].
  destruct (getTime (date v)) as [|tv], (P s) as [|ts]; cbn.
  1-3: split; [discriminate | intros (a & b & H1 & H2 & _); discriminate].
  rewrite Z.ltb_lt. split.
  - intros H. now exists tv, ts.
  - intros (a & b & H1 & H2 & H). injection H1 as ->. injection H2 as ->. exact H.
Qed.

Lemma DaysDiff_num L P v s k :
  DaysDiff L P v s = Num k ->
  exists tv ts, getTime (date v) = Num tv /\ P s = Num ts
                /\ k = Z.quot (round53 (tv - ts)) msPerDay.
Proof.
  intros H.
  destruct (getTime (date v)) as [|tv] eqn:Hv.
  - unfold DaysDiff, Dayjs.diff_day, Dayjs.of_Date, Dayjs.valueOf in H.
    cbn [Dayjs.offset_ Dayjs.d_] in H. now rewrite Hv in H.
  - destruct (P s) as [|ts] eqn:Hs.
    + unfold DaysDiff, Dayjs.diff_day, Dayjs.of_Date, Dayjs.of_string, Dayjs.valueOf in H.
      cbn [Dayjs.offset_ Dayjs.d_ getTime] in H. now rewrite Hv, Hs in H.
    + rewrite (DaysDiff_quot L P v s tv ts Hv Hs) in H. injection H as <-.
      now exists tv, ts.
Qed.

(** X17.  [isBefore] against [DaysDiff]: when [isBefore] holds, [DaysDiff]
    is a number and is not positive; when [DaysDiff] is negative,
    [isBefore] holds; when it is positive, [isBefore] does not. *)
Theorem isBefore_DaysDiff :
  forall (L : Z) (P : string -> number) (v : DateTime) (s : string),
    (isBefore L P v s = true -> exists k, DaysDiff L P v s = Num k /\ k <= 0)
    /\ (forall k, DaysDiff L P v s = Num k -> k < 0 -> isBefore L P v s = true)
    /\ (forall k, DaysDiff L P v s = Num k -> 0 < k -> isBefore L P v s = false).
Proof.
  intros L P v s. split; [|split].
  - intros H. apply isBefore_lt in H as (tv & ts & Hv & Hs & Hlt).
    exists (Z.quot (round53 (tv - ts)) msPerDay). split; [now apply DaysDiff_quot|].
    pose proof (proj1 (round53_sign (tv - ts)) ltac:(lia)) as Hr.
    unfold msPerDay. Z.to_euclidean_division_equations. lia.
  - intros k H Hk. apply DaysDiff_num in H as (tv & ts & Hv & Hs & ->).
    apply isBefore_lt. exists tv, ts. repeat split; try assumption.
    destruct (round53_sign (tv - ts)) as (_ & Hp & Hz).
    destruct (Z.lt_trichotomy (tv - ts) 0) as [Hlt | [Heq | Hgt]]; [lia | |].
    + rewrite (Hz Heq) in Hk. discriminate Hk.
    + specialize (Hp Hgt). unfold msPerDay in Hk.
      Z.to_euclidean_division_equations. lia.
  - intros k H Hk. apply DaysDiff_num in H as (tv & ts & Hv & Hs & ->).
    destruct (isBefore L P v s) eqn:Eb; [|reflexivity].
    apply isBefore_lt in Eb as (a & b & Ha & Hb & Hlt).
    rewrite Ha in Hv. rewrite Hb in Hs. injection Hv as ->. injection Hs as ->.
    pose proof (proj1 (round53_sign (tv - ts)) ltac:(lia)) as Hr.
    unfold msPerDay in Hk. Z.to_euclidean_division_equations. lia.
Qed.

Lemma isBefore_DaysDiff_witness :
  exists k,
    DaysDiff 540 spelling_parse (mkDateTime (mkDate (Num 1709218800000))) "2024-03-01"
    = Num k /\ k <= 0.
Proof.
  apply (proj1 (isBefore_DaysDiff 540 spelling_parse
                  (mkDateTime (mkDate (Num 1709218800000))) "2024-03-01")).
  vm_compute. reflexivity.
Defined.

(** X18.  [addDate] at the edges: from an invalid object [addDate] and
    [subtractDate] give an invalid object; from a valid one at which the
    engine knows Asia/Tokyo at +09:00, a shift that takes the wall clock of
    Asia/Tokyo out of the range of time values gives an invalid object, and
    [afterDay] then returns "Invalid Date". *)
Theorem addDate_edges :
  forall (L : Z) (P Pd : string -> number) (E : Z -> string) (v : DateTime) (n : Z),
    (getTime (date v) = NaN ->
     getTime (date (addDate L P Pd E v n)) = NaN
     /\ getTime (date (subtractDate L P Pd E v n)) = NaN)
    /\ (forall t,
          quarter_host L -> getTime (date v) = Num t -> in_margin t ->
          reads_tokyo L P Pd E t ->
          maxTime < Z.abs (t + (Dayjs.tokyo - L) * msPerMinute + n * msPerDay) ->
          getTime (date (addDate L P Pd E v n)) = NaN
          /\ afterDay L P Pd E v n = "Invalid Date").
Proof.
  intros L P Pd E v n. split.
  - intros Hv. rewrite (subtractDate_addDate L P Pd E n v).
    rewrite (addDate_invalid L P Pd E v n Hv),
      (addDate_invalid L P Pd E v (n * -1) Hv).
    split; reflexivity.
  - intros t HL Hv Ht HE Hn. pose proof HL as [HL' _]. unfold addDate, afterDay.
    unfold in_margin, msPerDay in Ht.
    assert (Ht' : Z.abs t <= maxTime) by (unfold maxTime in *; lia).
    assert (Hz : Z.abs (t + (Dayjs.tokyo - L) * msPerMinute) <= maxTime)
      by (unfold Dayjs.tokyo, msPerMinute, maxTime in *; lia).
    rewrite (zoned_valid L P Pd E v t HL Hv Ht' HE Hz).
    rewrite add_d_valid, (TimeClip_out _ Hn). split; reflexivity.
Qed.

(** 200,000,000 days after 1970-01-01. *)
Lemma addDate_edges_witness :
  getTime (date (addDate 540 (reading_engine 540 [0]) (reading_engine 540 [0]) tokyo_string (mkDateTime (mkDate (Num 0))) 200000000))
  = NaN
  /\ afterDay 540 (reading_engine 540 [0]) (reading_engine 540 [0]) tokyo_string (mkDateTime (mkDate (Num 0))) 200000000
     = "Invalid Date".
Proof.
  apply (proj2 (addDate_edges 540 (reading_engine 540 [0]) (reading_engine 540 [0]) tokyo_string (mkDateTime (mkDate (Num 0)))
                  200000000) 0 ltac:(split; [lia | reflexivity]) eq_refl
           ltac:(unfold in_margin, maxTime, msPerDay; lia)
           ltac:(split; vm_compute; reflexivity)
           ltac:(unfold Dayjs.tokyo, maxTime, msPerDay, msPerMinute; lia)).
Defined.
